(** * dqe-automation: the data-quality library and the Postgres connector

    A shallow embedding of

    - [src/data_quality/data_quality_validation_library.py]
      (class [DataQualityLibrary]), and
    - [src/connectors/postgres/postgres_connector.py]
      (class [PostgresConnectorContextManager]),

    followed by the properties the specification states about them.

    Python exceptions are values of [exn]; a call either returns or raises
    ([result]).  The two classes are thin layers over pandas and psycopg2,
    which are not part of the repository: [Module Pandas] models the
    dataframe operations the library calls, on lists of rows, after their
    behaviour in pandas 2.2, and [Module Postgres] models the driver as a
    world of open handles with a trace of events.  Numbers are rationals;
    where the code computes with doubles ([math.isclose]) the rounding is
    written out ([Module Float64]).  The two pandas operations whose
    result only feeds the text of a message ([DataFrame.to_string] and
    [DataFrame.merge]) are section variables of the library. *)

From Stdlib Require Import ZArith QArith Qcanon Qabs Qcabs Qminmax.
From Stdlib Require Import String Ascii DecimalString.
From stdpp Require Import base decidable option list sorting gmap strings.

Local Open Scope string_scope.
Local Open Scope Z_scope.

(** * Part I: the embedding *)

(** ** Python exceptions and results *)

Module Py.

(** The exception classes that occur in the two modules.  [Exception_]
    is the base class [Exception]; [DriverError] stands for the errors of
    the database driver ([psycopg2.Error] and its subclasses);
    [IndexingError] is [pandas.errors.IndexingError]. *)
Inductive exn : Type :=
| AssertionError (msg : string)
| ValueError (msg : string)
| KeyError (msg : string)
| TypeError (msg : string)
| IndexingError (msg : string)
| DriverError (msg : string)
| Exception_ (msg : string).

(** [str(e)] *)
Definition str_exn (e : exn) : string :=
  match e with
  | AssertionError m | ValueError m | KeyError m
  | TypeError m | IndexingError m | DriverError m | Exception_ m => m
  end.

(** [isinstance(e, (AssertionError, ValueError))] *)
Definition is_assertion_or_value_error (e : exn) : bool :=
  match e with
  | AssertionError _ | ValueError _ => true
  | _ => false
  end.

Definition is_assertion_error (e : exn) : bool :=
  match e with AssertionError _ => true | _ => false end.

Inductive result (A : Type) : Type :=
| Return (a : A)
| Raise (e : exn).
Arguments Return {A} a.
Arguments Raise {A} e.

Definition bind {A B} (r : result A) (k : A -> result B) : result B :=
  match r with
  | Return a => k a
  | Raise e => Raise e
  end.

Definition returns {A} (r : result A) : Prop :=
  match r with Return _ => True | Raise _ => False end.

Definition raises_assertion {A} (r : result A) : Prop :=
  match r with
  | Raise (AssertionError _) => True
  | _ => False
  end.

(** [assert cond, msg] *)
Definition assert_ (cond : bool) (msg : string) : result unit :=
  if cond then Return tt else Raise (AssertionError msg).

(** [str(n)] for a Python [int] *)
Definition str_int (n : Z) : string := NilEmpty.string_of_int (Z.to_int n).

(** [abs(a - b)] *)
Definition abs_diff (a b : Z) : Z := Z.abs (a - b).

(** The newline character of the string literals *)
Definition nl : string := String (ascii_of_nat 10) EmptyString.

(** Truth value of an optional list: [None] and [[]] are false. *)
Definition truthy {A} (l : option (list A)) : bool :=
  match l with
  | Some (_ :: _) => true
  | _ => false
  end.

End Py.
Export Py.

#[global] Instance result_ret : MRet result := @Return.
#[global] Instance result_bind : MBind result := fun A B k r => Py.bind r k.
#[global] Instance result_fmap : FMap result :=
  fun A B f r => Py.bind r (fun a => Return (f a)).

(** ** Double-precision arithmetic

    A finite double is a rational number, and an operation on doubles is
    the exact operation followed by rounding to the nearest double, ties
    to even.  Zero has one sign here: Python's [0.0 == -0.0]. *)

Module Float64.

(** binary64: 53 bits of precision, least exponent -1074 *)
Definition prec : Z := 53.
Definition emin : Z := -1074.

Definition pow2 (e : Z) : Q := Qpower 2 e.

(** The exponent of the leading bit of [q > 0]: [floor (log2 q)] *)
Definition ilog2 (q : Q) : Z :=
  let e := Z.log2 (Qnum q) - Z.log2 (Z.pos (Qden q)) in
  if Qle_bool (pow2 e) q then e else e - 1.

(** The integer nearest to [q >= 0], the even one of two *)
Definition nearest_even (q : Q) : Z :=
  let n := Qnum q in
  let d := Z.pos (Qden q) in
  let fl := n / d in
  match 2 * (n mod d) ?= d with
  | Lt => fl
  | Gt => fl + 1
  | Eq => if Z.even fl then fl else fl + 1
  end.

(** Rounding of [q > 0] to 53 significant bits, or to a multiple of
    [2^-1074] in the subnormal range *)
Definition round_pos (q : Q) : Q :=
  let e := Z.max (ilog2 q - (prec - 1)) emin in
  (inject_Z (nearest_even (q / pow2 e)) * pow2 e)%Q.

(** The double nearest to [x].  A value beyond the largest double is
    left finite: in the comparisons of [isclose] it is greater than
    every tolerance, as infinity is. *)
Definition round (x : Qc) : Qc :=
  match (x ?= 0)%Qc with
  | Eq => 0%Qc
  | Gt => Q2Qc (round_pos x)
  | Lt => (- Q2Qc (round_pos (- x)%Qc))%Qc
  end.

(** [math.isclose(a, b, rel_tol=rel_tol, abs_tol=abs_tol)], as in
    CPython: the arguments are converted to doubles, then
    [a == b or fabs(b - a) <= fabs(rel_tol * b)
            or fabs(b - a) <= fabs(rel_tol * a) or fabs(b - a) <= abs_tol]. *)
Definition isclose (rel_tol abs_tol a b : Qc) : bool :=
  let a := round a in
  let b := round b in
  if Qc_eq_dec a b then true
  else
    let diff := Qcabs (round (b - a)%Qc) in
    Qle_bool diff (Qcabs (round (rel_tol * b)%Qc))
    || Qle_bool diff (Qcabs (round (rel_tol * a)%Qc))
    || Qle_bool diff abs_tol.

End Float64.

(** ** The dataframe model *)

Module Pandas.

(** A cell holds a number, a timestamp, a string or a null (NaN/None/NaT).
    A number is the value of an integer or of a finite double.  Python's
    [1] and [1.0] are equal and hash alike, and the comparison of tables
    ignores dtypes, so numbers are one constructor over canonical
    rationals: Leibniz equality is equality of values. *)
Inductive scalar : Type :=
| Null
| Num (q : Qc)
| Ts (t : Z)
| Str (s : string).

Inductive kind : Type := KNum | KTs | KStr.

Definition kind_of (v : scalar) : option kind :=
  match v with
  | Null => None
  | Num _ => Some KNum
  | Ts _ => Some KTs
  | Str _ => Some KStr
  end.

Definition kind_eqb (k1 k2 : kind) : bool :=
  match k1, k2 with
  | KNum, KNum | KTs, KTs | KStr, KStr => true
  | _, _ => false
  end.

(** [pd.isna(v)] *)
Definition isna (v : scalar) : bool :=
  match v with Null => true | _ => false end.

(** Python's [<] is defined between two numbers, two timestamps or two
    strings; between values of different kinds it raises [TypeError].
    Nulls are set aside by pandas before it compares. *)
Definition comparable (a b : scalar) : bool :=
  match kind_of a, kind_of b with
  | Some k1, Some k2 => kind_eqb k1 k2
  | _, _ => true
  end.

(** When it sorts by several columns pandas orders the distinct values
    of each column with the strings set apart, after the other values:
    only a number and a timestamp are then compared across kinds. *)
Definition comparable_mixed (a b : scalar) : bool :=
  match kind_of a, kind_of b with
  | Some KNum, Some KTs | Some KTs, Some KNum => false
  | _, _ => true
  end.

(** The order [sort_values] puts on the cells of one column: ascending,
    numbers and timestamps before strings, nulls last
    ([na_position='last']).  A number and a timestamp are never compared
    (see [orderable]). *)
Definition rank (v : scalar) : Z :=
  match v with Num _ => 0 | Ts _ => 1 | Str _ => 2 | Null => 3 end.

Definition scalar_compare (a b : scalar) : comparison :=
  match a, b with
  | Num x, Num y => (x ?= y)%Qc
  | Ts x, Ts y => (x ?= y)%Z
  | Str x, Str y => String.compare x y
  | _, _ => (rank a ?= rank b)%Z
  end.

(** One row of a frame: its index label and one cell per column. *)
Record Row : Type := mkRow { label : Z; cells : list scalar }.

(** A [pd.DataFrame]: the column labels, which pandas allows to repeat,
    and the rows in frame order.  Every row has exactly [length columns]
    cells; a frame with rows but no column has rows with no cell. *)
Record DataFrame : Type := mkFrame { columns : list string; rows : list Row }.

Definition well_formed (df : DataFrame) : Prop :=
  NoDup (columns df) /\
  Forall (fun r => length (cells r) = length (columns df)) (rows df).

(** [len(df)] *)
Definition len (df : DataFrame) : Z := Z.of_nat (length (rows df)).

(** [df.empty]: some axis has length 0 *)
Definition empty (df : DataFrame) : bool :=
  (len df =? 0) || (Z.of_nat (length (columns df)) =? 0).

(** [df.reset_index(drop=True)]: a new frame with the labels 0, 1, ... *)
Definition reset_index (df : DataFrame) : DataFrame :=
  mkFrame (columns df)
          (imap (fun i r => mkRow (Z.of_nat i) (cells r)) (rows df)).

(** Python's [l[:n]] *)
Definition slice_to {A} (n : Z) (l : list A) : list A :=
  if 0 <=? n then take (Z.to_nat n) l
  else take (length l - Z.to_nat (- n)) l.

(** [df.head(n)] *)
Definition head (n : Z) (df : DataFrame) : DataFrame :=
  mkFrame (columns df) (slice_to n (rows df)).

(** [c in df.columns] *)
Definition has_column (c : string) (df : DataFrame) : bool :=
  bool_decide (c ∈ columns df).

Definition position (c : string) (df : DataFrame) : result nat :=
  match list_find (fun c' => c' = c) (columns df) with
  | Some (j, _) => Return j
  | None => Raise (KeyError c)
  end.

Definition cell (j : nat) (r : Row) : scalar := default Null (cells r !! j).

(** How many columns carry the label [c] *)
Definition label_count (c : string) (df : DataFrame) : nat :=
  length (filter (fun c' => c' = c) (columns df)).

(** The positions of the columns whose label satisfies [P] *)
Definition positions (P : string -> Prop) `{forall c, Decision (P c)}
    (df : DataFrame) : list nat :=
  fst <$> filter (fun p => P p.2) (imap (fun j c => (j, c)) (columns df)).

(** What [df[c]] gives: a Series when one column carries the label, a
    frame of the columns that carry it when several do. *)
Inductive selected : Type :=
| OneColumn (values : list scalar)
| SubFrame (df : DataFrame).

(** [df[c]] *)
Definition getitem (c : string) (df : DataFrame) : result selected :=
  match positions (fun c' => c' = c) df with
  | [] => Raise (KeyError c)
  | [j] => Return (OneColumn (cell j <$> rows df))
  | js => Return (SubFrame (mkFrame (replicate (length js) c)
                              ((fun r => mkRow (label r) ((fun j => cell j r) <$> js))
                                 <$> rows df)))
  end.

(** [df[c]] where one column carries the label [c], as the list of its
    values *)
Definition column (c : string) (df : DataFrame) : result (list scalar) :=
  j ← position c df; mret (cell j <$> rows df).

(** [s.isna().sum()] *)
Definition isna_sum (s : list scalar) : Z :=
  Z.of_nat (length (filter (fun v => isna v = true) s)).

(** [x.isna().sum()]: a number for a Series, a Series with one number per
    column for a frame *)
Inductive null_counts : Type :=
| OneCount (n : Z)
| CountPerColumn (ns : list Z).

Definition isna_sum_selected (x : selected) : null_counts :=
  match x with
  | OneColumn values => OneCount (isna_sum values)
  | SubFrame df =>
      CountPerColumn
        ((fun j => isna_sum ((fun r => cell j r) <$> rows df))
           <$> seq 0 (length (columns df)))
  end.

(** [df[mask]] for a boolean mask aligned with the rows *)
Fixpoint select {A} (mask : list bool) (l : list A) : list A :=
  match mask, l with
  | b :: mask', x :: l' => if b then x :: select mask' l' else select mask' l'
  | _, _ => []
  end.

Definition loc_mask (mask : list bool) (df : DataFrame) : DataFrame :=
  mkFrame (columns df) (select mask (rows df)).

(** [df.drop(c, axis=1)]: the frame without the columns labelled [c]; a
    [KeyError] when no column carries the label *)
Definition drop_column (c : string) (df : DataFrame) : result DataFrame :=
  if has_column c df
  then
    let js := positions (fun c' => c' <> c) df in
    mret (mkFrame (filter (fun c' => c' <> c) (columns df))
                  ((fun r => mkRow (label r) ((fun j => cell j r) <$> js))
                     <$> rows df))
  else Raise (KeyError c).

(** *** [DataFrame.duplicated(subset, keep=False)] *)

#[global] Instance Qc_eq_decision : EqDecision Qc := Qc_eq_dec.
#[global] Instance scalar_eq_decision : EqDecision scalar.
Proof. solve_decision. Defined.
#[global] Instance comparison_eq_decision : EqDecision comparison.
Proof. solve_decision. Defined.

(** The key of a row: its cells at the given column positions. *)
Definition key (js : list nat) (r : Row) : list scalar :=
  (fun j => cell j r) <$> js.

(** The keys [duplicated] compares: whole rows without a subset; with
    one, the cells of every column whose label is in the subset, in frame
    order.  A name that is not a label is a [KeyError] (of the names
    that are missing the model keeps the first). *)
Definition keys_of (subset : option (list string)) (df : DataFrame)
  : result (list (list scalar)) :=
  match subset with
  | None => mret (cells <$> rows df)
  | Some cs =>
      match filter (fun c => c ∉ columns df) cs with
      | c :: _ => Raise (KeyError c)
      | [] => mret (key (positions (fun c => c ∈ cs) df) <$> rows df)
      end
  end.

Definition occurrences (k : list scalar) (ks : list (list scalar)) : nat :=
  length (filter (fun k' => k' = k) ks).

(** [keep=False] marks every row whose key occurs more than once; nulls
    in a key are equal to each other. *)
Definition mark_all_duplicates (ks : list (list scalar)) : list bool :=
  (fun k => bool_decide (2 <= occurrences k ks)%nat) <$> ks.

(** On an [empty] frame (no row or no column) [duplicated] returns an
    empty mask before it looks at the subset. *)
Definition duplicated (subset : option (list string)) (df : DataFrame)
  : result (list bool) :=
  if empty df then mret []
  else ks ← keys_of subset df; mret (mark_all_duplicates ks).

(** [df[mask]] for the mask [duplicated] returned.  The empty mask of a
    frame with rows and no column cannot be aligned with the rows, and
    the selection raises. *)
Definition getitem_mask (mask : list bool) (df : DataFrame) : result DataFrame :=
  if bool_decide (length mask = length (rows df))
  then Return (loc_mask mask df)
  else Raise (IndexingError "Unalignable boolean Series provided as indexer (index of the boolean Series and of the indexed object do not match).").

(** *** [DataFrame.sort_values(by=list(df.columns))] *)

Definition cells_compare : list scalar -> list scalar -> comparison :=
  list_compare scalar_compare.

Definition row_le (r1 r2 : Row) : Prop :=
  cells_compare (cells r1) (cells r2) <> Gt.

#[global] Instance row_le_dec : RelDecision row_le.
Proof. intros r1 r2. unfold row_le. apply _. Defined.

(** The values of a list can be compared pairwise. *)
Definition homogeneous (cmp : scalar -> scalar -> bool) (l : list scalar) : bool :=
  forallb (fun a => forallb (cmp a) l) l.

(** Sorting by one column compares its values with [<], so the column
    must hold values of one kind (and nulls); sorting by several orders
    each column with its strings apart, so a column may mix strings with
    values of one other kind. *)
Definition orderable (df : DataFrame) : bool :=
  let cmp := if bool_decide (length (columns df) = 1%nat)
             then comparable else comparable_mixed in
  forallb (fun j => homogeneous cmp ((fun r => cell j r) <$> rows df))
          (seq 0 (length (columns df))).

(** The first label of the frame that is carried by several columns *)
Definition repeated_label (df : DataFrame) : option string :=
  snd <$> list_find (fun c => (2 <= label_count c df)%nat) (columns df).

(** [sort_values] returns: no label is repeated and every column can be
    ordered. *)
Definition sortable (df : DataFrame) : bool :=
  bool_decide (repeated_label df = None) && orderable df.

(** Ascending lexicographic order on the full column tuple, nulls last
    in each column.  A repeated label makes the sort raise [ValueError]
    when it looks up the first key, a column that cannot be ordered makes
    it raise [TypeError].  With no column there is nothing to sort by;
    the rows then have no cell and stay in place.  Rows that tie on every
    column have the same cells, so the order of ties only shows in the
    labels. *)
Definition sort_values_all (df : DataFrame) : result DataFrame :=
  match repeated_label df with
  | Some c => Raise (ValueError ("The column label '" ++ c ++ "' is not unique."))
  | None =>
      if orderable df
      then Return (mkFrame (columns df) (merge_sort row_le (rows df)))
      else if bool_decide (length (columns df) = 1%nat)
           then Raise (TypeError "'<' not supported between instances")
           else Raise (TypeError "'values' is not ordered, please explicitly specify the categories order by passing in a categories argument.")
  end.

(** *** [pd.testing.assert_frame_equal(left, right, check_dtype=False,
        check_exact=False, rtol=rtol)] *)

(** The default [atol] of [assert_frame_equal]: the double [1e-8] *)
Definition default_atol : Qc := Float64.round (Q2Qc (1 # 100000000)).

(** The comparison of two cells: nulls match nulls, equal values match,
    two numbers match when [math.isclose] holds of them, anything else
    differs. *)
Definition almost_equal (rtol atol : Qc) (a b : scalar) : bool :=
  if isna a && isna b then true
  else if isna a || isna b then false
  else if bool_decide (a = b) then true
  else match a, b with
       | Num x, Num y => Float64.isclose rtol atol x y
       | _, _ => false
       end.

Definition column_almost_equal (rtol atol : Qc) (left right : list Row) (j : nat) : bool :=
  forallb (fun p => almost_equal rtol atol (cell j p.1) (cell j p.2))
          (zip left right).

(** Shapes, then index and column labels, then the values column by
    column; every failure is an [AssertionError]. *)
Definition assert_frame_equal (left right : DataFrame) (rtol : Qc) : result unit :=
  _ ← assert_ (bool_decide (length (rows left) = length (rows right)
                            /\ length (columns left) = length (columns right)))
              "DataFrame shape mismatch";
  _ ← assert_ (bool_decide (label <$> rows left = label <$> rows right))
              "DataFrame.index are different";
  _ ← assert_ (bool_decide (columns left = columns right))
              "DataFrame.columns are different";
  assert_ (forallb (column_almost_equal rtol default_atol (rows left) (rows right))
                   (seq 0 (length (columns left))))
          "DataFrame values are different".

End Pandas.

(** ** Frames as objects

    Python passes frames by reference.  A store maps object identities to
    frames; a pandas call that returns a frame allocates a new object and
    leaves the objects it was given as they are (none of the calls below
    is made with [inplace=True]). *)

Module Store.
Import Pandas.

Definition ref := positive.

Definition St (A : Type) : Type :=
  gmap ref DataFrame -> result A * gmap ref DataFrame.

#[global] Instance St_ret : MRet St := fun A a h => (Return a, h).
#[global] Instance St_bind : MBind St := fun A B k m h =>
  match m h with
  | (Return a, h') => k a h'
  | (Raise e, h') => (Raise e, h')
  end.

(** A pure computation that can raise *)
Definition lift {A} (r : result A) : St A := fun h => (r, h).

(** The frame behind a reference.  A reference held by running code is
    bound; the other case is there to make the function total. *)
Definition deref (l : ref) : St DataFrame := fun h =>
  match h !! l with
  | Some df => (Return df, h)
  | None => (Raise (Exception_ "unbound reference"), h)
  end.

(** A new object *)
Definition new (df : DataFrame) : St ref := fun h =>
  let l := fresh (dom h) in (Return l, <[l := df]> h).

(** [try: body  except Exception as e: handler(e)] *)
Definition try_except {A} (body : St A) (handler : exn -> St A) : St A := fun h =>
  match body h with
  | (Return a, h') => (Return a, h')
  | (Raise e, h') => handler e h'
  end.

Definition reset_index (df : ref) : St ref :=
  f ← deref df; new (Pandas.reset_index f).

Definition sort_values_all (df : ref) : St ref :=
  f ← deref df; f' ← lift (Pandas.sort_values_all f); new f'.

Definition assert_frame_equal (left right : ref) (rtol : Qc) : St unit :=
  l ← deref left; r ← deref right; lift (Pandas.assert_frame_equal l r rtol).

Definition len (df : ref) : St Z := f ← deref df; mret (Pandas.len f).

Definition head (n : Z) (df : ref) : St ref :=
  f ← deref df; new (Pandas.head n f).

(** [df[df[c] == v]] *)
Definition where_equal (c : string) (v : scalar) (df : ref) : St ref :=
  f ← deref df;
  values ← lift (Pandas.column c f);
  new (loc_mask ((fun x => bool_decide (x = v)) <$> values) f).

Definition drop_column (c : string) (df : ref) : St ref :=
  f ← deref df; f' ← lift (Pandas.drop_column c f); new f'.

End Store.

(** ** [class DataQualityLibrary] *)

Module DataQualityLibrary.
Import Pandas.

Section Library.

(** [DataFrame.to_string()]: the rendering of a frame in a message *)
Variable to_string : DataFrame -> string.

(** [left.merge(right, how='outer', indicator=True)]: the outer join on
    the common columns, with the source of each row in one added column
    [_merge]; it can raise, and does when the name [_merge] is taken. *)
Variable merge_outer_indicator : DataFrame -> DataFrame -> result DataFrame.

Local Open Scope string_scope.

Definition check_duplicates (df : DataFrame)
    (column_names : option (list string)) (max_display : Z) : result unit :=
  duplicates ←
    (if truthy column_names
     then mask ← duplicated column_names df; getitem_mask mask df
     else mask ← duplicated None df; getitem_mask mask df);
  if (len duplicates >? 0)%Z then
    let sample_duplicates := head max_display duplicates in
    let more_rows :=
      if (len duplicates >? max_display)%Z
      then (len duplicates - max_display)%Z else 0%Z in
    let error_msg :=
      "Found " ++ str_int (len duplicates) ++ " duplicate rows in the dataset."
        ++ nl ++ nl
        ++ "First " ++ str_int (Z.min (len duplicates) max_display)
        ++ " duplicate rows:" ++ nl
        ++ to_string sample_duplicates ++ nl in
    let error_msg :=
      if (more_rows >? 0)%Z
      then error_msg ++ nl ++ "... and " ++ str_int more_rows
             ++ " more duplicate rows not shown."
      else error_msg in
    assert_ false error_msg
  else mret tt.

Definition check_count (source_df target_df : DataFrame) : result unit :=
  let source_count := len source_df in
  let target_count := len target_df in
  assert_ (source_count =? target_count)%Z
    ("Row count mismatch: Source has " ++ str_int source_count ++ " rows, "
       ++ "but Target has " ++ str_int target_count ++ " rows. "
       ++ "Difference: " ++ str_int (abs_diff source_count target_count)
       ++ " rows.").

Definition check_dataset_is_not_empty (df : DataFrame) : result unit :=
  _ ← assert_ (negb (empty df)) "Dataset is empty. Expected at least one row.";
  assert_ (Z.of_nat (length (columns df)) >? 0)%Z "Dataset has no columns.".

(** The loop of [check_not_null_values], with [null_columns] as the
    accumulator.  When several columns carry the label, [null_count] is
    a Series and the test [null_count > 0] raises the [ValueError] of its
    truth value. *)
Fixpoint collect_null_columns (df : DataFrame) (column_names : list string)
    (null_columns : list (string * Z)) : result (list (string * Z)) :=
  match column_names with
  | [] => mret null_columns
  | column :: rest =>
      if negb (has_column column df)
      then Raise (ValueError
                    ("Column '" ++ column ++ "' does not exist in the DataFrame."))
      else
        selected ← getitem column df;
        match isna_sum_selected selected with
        | OneCount null_count =>
            collect_null_columns df rest
              (if (null_count >? 0)%Z
               then (null_columns ++ [(column, null_count)])%list
               else null_columns)
        | CountPerColumn _ =>
            Raise (ValueError "The truth value of a Series is ambiguous. Use a.empty, a.bool(), a.item(), a.any() or a.all().")
        end
  end.

Definition null_line (p : string * Z) : string :=
  "  - " ++ p.1 ++ ": " ++ str_int p.2 ++ " null values".

Definition check_not_null_values (df : DataFrame) (column_names : list string)
  : result unit :=
  null_columns ← collect_null_columns df column_names [];
  assert_ (Z.of_nat (length null_columns) =? 0)%Z
    ("Found null values in the following columns:" ++ nl
       ++ String.concat nl (null_line <$> null_columns)).

(** [merged[merged['_merge'] == side].drop('_merge', axis=1)], where
    [_merge] is the one column the join added *)
Definition merge_side (merged : DataFrame) (side : string) : result DataFrame :=
  indicator ← Pandas.column "_merge" merged;
  drop_column "_merge"
    (loc_mask ((fun v => bool_decide (v = Str side)) <$> indicator) merged).

(** The relative tolerance the check passes to [assert_frame_equal]: the
    double [1e-5] *)
Definition rtol : Qc := Float64.round (Q2Qc (1 # 100000)).

Definition count_lines (source_df_sorted target_df_sorted : DataFrame) : string :=
  "Row count - Source: " ++ str_int (len source_df_sorted)
    ++ ", Target: " ++ str_int (len target_df_sorted) ++ nl
    ++ "Difference: "
    ++ str_int (abs_diff (len source_df_sorted) (len target_df_sorted))
    ++ " rows" ++ nl ++ nl.

Definition possible_causes (merge_error : exn) : string :=
  nl ++ "Unable to perform detailed comparison: " ++ str_exn merge_error ++ nl
    ++ nl ++ "Possible causes:" ++ nl
    ++ "- Data type mismatches between source and target" ++ nl
    ++ "- Column name differences" ++ nl
    ++ "- Date/datetime format inconsistencies" ++ nl.

Definition missing_lines (missing_in_target : DataFrame) (max_display : Z) : string :=
  let sample_missing := head max_display missing_in_target in
  let more_missing :=
    if (len missing_in_target >? max_display)%Z
    then (len missing_in_target - max_display)%Z else 0%Z in
  "Rows missing in target (" ++ str_int (len missing_in_target) ++ " total):" ++ nl
    ++ to_string sample_missing ++ nl
    ++ (if (more_missing >? 0)%Z
        then "... and " ++ str_int more_missing ++ " more rows not shown." ++ nl
        else "")
    ++ nl.

Definition extra_lines (extra_in_target : DataFrame) (max_display : Z) : string :=
  let sample_extra := head max_display extra_in_target in
  let more_extra :=
    if (len extra_in_target >? max_display)%Z
    then (len extra_in_target - max_display)%Z else 0%Z in
  "Extra rows in target not in source (" ++ str_int (len extra_in_target)
    ++ " total):" ++ nl
    ++ to_string sample_extra ++ nl
    ++ (if (more_extra >? 0)%Z
        then "... and " ++ str_int more_extra ++ " more rows not shown." ++ nl
        else "").

(** The inner [try] of [check_data_completeness]: the text it appends
    to [error_msg].  [merge] and the two selections come before the
    first append, so a raise leaves only the text of the handler. *)
Definition difference_lines (source_df_sorted target_df_sorted : DataFrame)
    (max_display : Z) : string :=
  match (merged ← merge_outer_indicator source_df_sorted target_df_sorted;
         missing_in_target ← merge_side merged "left_only";
         extra_in_target ← merge_side merged "right_only";
         mret (missing_in_target, extra_in_target)) with
  | Return (missing_in_target, extra_in_target) =>
      (if (len missing_in_target >? 0)%Z
       then missing_lines missing_in_target max_display else "")
        ++ (if (len extra_in_target >? 0)%Z
            then extra_lines extra_in_target max_display else "")
  | Raise merge_error => possible_causes merge_error
  end.

Definition check_data_completeness (source_df target_df : DataFrame)
    (max_display : Z) : result unit :=
  let source_df_reset := reset_index source_df in
  let target_df_reset := reset_index target_df in
  source_df_sorted ← reset_index <$> sort_values_all source_df_reset;
  target_df_sorted ← reset_index <$> sort_values_all target_df_reset;
  match assert_frame_equal source_df_sorted target_df_sorted rtol with
  | Return _ => mret tt
  | Raise e =>
      if is_assertion_or_value_error e then
        let error_msg := "Data completeness check failed:" ++ nl ++ nl in
        let error_msg :=
          error_msg ++ count_lines source_df_sorted target_df_sorted in
        let error_msg :=
          error_msg
            ++ difference_lines source_df_sorted target_df_sorted max_display in
        Raise (AssertionError error_msg)
      else Raise e
  end.

(** *** [check_data_completeness] on frame objects

    The same statements with the frames held in the store, every
    intermediate frame a new object. *)

Definition to_string_st (df : Store.ref) : Store.St string :=
  f ← Store.deref df; mret (to_string f).

Definition merge_st (left right : Store.ref) : Store.St Store.ref :=
  l ← Store.deref left; r ← Store.deref right;
  merged ← Store.lift (merge_outer_indicator l r);
  Store.new merged.

Definition merge_side_st (merged : Store.ref) (side : string)
  : Store.St Store.ref :=
  selected ← Store.where_equal "_merge" (Str side) merged;
  Store.drop_column "_merge" selected.

Definition missing_lines_st (missing_in_target : Store.ref) (max_display : Z)
  : Store.St string :=
  sample_missing ← Store.head max_display missing_in_target;
  n ← Store.len missing_in_target;
  let more_missing := if (n >? max_display)%Z then (n - max_display)%Z else 0%Z in
  shown ← to_string_st sample_missing;
  mret ("Rows missing in target (" ++ str_int n ++ " total):" ++ nl
          ++ shown ++ nl
          ++ (if (more_missing >? 0)%Z
              then "... and " ++ str_int more_missing ++ " more rows not shown." ++ nl
              else "")
          ++ nl).

Definition extra_lines_st (extra_in_target : Store.ref) (max_display : Z)
  : Store.St string :=
  sample_extra ← Store.head max_display extra_in_target;
  n ← Store.len extra_in_target;
  let more_extra := if (n >? max_display)%Z then (n - max_display)%Z else 0%Z in
  shown ← to_string_st sample_extra;
  mret ("Extra rows in target not in source (" ++ str_int n ++ " total):" ++ nl
          ++ shown ++ nl
          ++ (if (more_extra >? 0)%Z
              then "... and " ++ str_int more_extra ++ " more rows not shown." ++ nl
              else "")).

Definition difference_lines_st (source_df_sorted target_df_sorted : Store.ref)
    (max_display : Z) : Store.St string :=
  Store.try_except
    (merged ← merge_st source_df_sorted target_df_sorted;
     missing_in_target ← merge_side_st merged "left_only";
     extra_in_target ← merge_side_st merged "right_only";
     n_missing ← Store.len missing_in_target;
     part1 ← (if (n_missing >? 0)%Z
              then missing_lines_st missing_in_target max_display
              else mret "");
     n_extra ← Store.len extra_in_target;
     part2 ← (if (n_extra >? 0)%Z
              then extra_lines_st extra_in_target max_display
              else mret "");
     mret (part1 ++ part2))
    (fun merge_error => mret (possible_causes merge_error)).

Definition count_lines_st (source_df_sorted target_df_sorted : Store.ref)
  : Store.St string :=
  n ← Store.len source_df_sorted;
  m ← Store.len target_df_sorted;
  mret ("Row count - Source: " ++ str_int n ++ ", Target: " ++ str_int m ++ nl
          ++ "Difference: " ++ str_int (abs_diff n m) ++ " rows" ++ nl ++ nl).

Definition check_data_completeness_st (source_df target_df : Store.ref)
    (max_display : Z) : Store.St unit :=
  source_df_reset ← Store.reset_index source_df;
  target_df_reset ← Store.reset_index target_df;
  source_df_sorted ← (s ← Store.sort_values_all source_df_reset; Store.reset_index s);
  target_df_sorted ← (t ← Store.sort_values_all target_df_reset; Store.reset_index t);
  Store.try_except
    (Store.assert_frame_equal source_df_sorted target_df_sorted rtol)
    (fun e =>
       if is_assertion_or_value_error e then
         let error_msg := "Data completeness check failed:" ++ nl ++ nl in
         counts ← count_lines_st source_df_sorted target_df_sorted;
         let error_msg := error_msg ++ counts in
         differences ←
           difference_lines_st source_df_sorted target_df_sorted max_display;
         let error_msg := error_msg ++ differences in
         Store.lift (Raise (AssertionError error_msg))
       else Store.lift (Raise e)).

End Library.

End DataQualityLibrary.

(** ** [class PostgresConnectorContextManager] *)

Module Postgres.
Import Pandas.

(** What the driver and the server do, seen from the connector: handles
    are opened and closed and queries are submitted. *)
Inductive event : Type :=
| Connected (c : nat)
| CursorOpened (c k : nat)
| CursorClosed (k : nat)
| ConnectionClosed (c : nat)
| ReadSqlQuery (c : nat) (query : string).

Record World : Type := mkWorld {
  next_handle : nat;
  open_connections : gset nat;
  open_cursors : gset nat;
  trace : list event
}.

Definition log (e : event) (w : World) : World :=
  mkWorld (next_handle w) (open_connections w) (open_cursors w) (trace w ++ [e]).

(** The attributes of the connector object *)
Record Connector : Type := mkConnector {
  db_host : string;
  db_name : string;
  db_port : Z;
  db_user : string;
  db_password : string;
  connection : option nat;
  cursor : option nat
}.

Definition set_connection (c : option nat) (self : Connector) : Connector :=
  mkConnector (db_host self) (db_name self) (db_port self) (db_user self)
              (db_password self) c (cursor self).

Definition set_cursor (k : option nat) (self : Connector) : Connector :=
  mkConnector (db_host self) (db_name self) (db_port self) (db_user self)
              (db_password self) (connection self) k.

(** A method call: from the object and the world to an outcome, the
    object and the world. *)
Definition Method (A : Type) : Type :=
  Connector -> World -> result A * Connector * World.

Section Driver.

(** Whether the server refuses a connection ([Some] with the driver's
    message) *)
Variable connect_refused : Connector -> option string.
(** Whether opening a cursor on a connection fails *)
Variable cursor_refused : nat -> option string.
(** What a query yields on an open connection *)
Variable query_result : string -> result DataFrame.

(** [psycopg2.connect(host=..., database=..., port=..., user=..., password=...)] *)
Definition psycopg2_connect (self : Connector) (w : World) : result nat * World :=
  match connect_refused self with
  | Some msg => (Raise (DriverError msg), w)
  | None =>
      let c := next_handle w in
      (Return c,
       mkWorld (S c) ({[c]} ∪ open_connections w) (open_cursors w)
               (trace w ++ [Connected c]))
  end.

(** [connection.cursor()] *)
Definition connection_cursor (c : nat) (w : World) : result nat * World :=
  match cursor_refused c with
  | Some msg => (Raise (DriverError msg), w)
  | None =>
      let k := next_handle w in
      (Return k,
       mkWorld (S k) (open_connections w) ({[k]} ∪ open_cursors w)
               (trace w ++ [CursorOpened c k]))
  end.

(** [cursor.close()] *)
Definition cursor_close (k : nat) (w : World) : World :=
  mkWorld (next_handle w) (open_connections w) (open_cursors w ∖ {[k]})
          (trace w ++ [CursorClosed k]).

(** [connection.close()] *)
Definition connection_close (c : nat) (w : World) : World :=
  mkWorld (next_handle w) (open_connections w ∖ {[c]}) (open_cursors w)
          (trace w ++ [ConnectionClosed c]).

(** [pd.read_sql_query(query, connection)] *)
Definition read_sql_query (query : string) (c : nat) (w : World)
  : result DataFrame * World :=
  let w' := log (ReadSqlQuery c query) w in
  if bool_decide (c ∈ open_connections w)
  then (query_result query, w')
  else (Raise (DriverError "connection already closed"), w').

Local Open Scope string_scope.

Definition __init__ (db_host db_name : string) (db_port : Z)
    (db_user db_password : string) : Connector :=
  mkConnector db_host db_name db_port db_user db_password None None.

Definition wrap_connect_error (e : exn) : exn :=
  match e with
  | DriverError msg => Exception_ ("Failed to connect to database: " ++ msg)
  | _ => e
  end.

Definition __enter__ : Method unit := fun self w =>
  match psycopg2_connect self w with
  | (Raise e, w1) => (Raise (wrap_connect_error e), self, w1)
  | (Return c, w1) =>
      let self1 := set_connection (Some c) self in
      match connection_cursor c w1 with
      | (Raise e, w2) => (Raise (wrap_connect_error e), self1, w2)
      | (Return k, w2) => (Return tt, set_cursor (Some k) self1, w2)
      end
  end.

Definition __exit__ : Method unit := fun self w =>
  let w1 := match cursor self with
            | Some k => cursor_close k w
            | None => w
            end in
  let w2 := match connection self with
            | Some c => connection_close c w1
            | None => w1
            end in
  (Return tt, self, w2).

Definition get_data_sql (query : string) : Method DataFrame := fun self w =>
  match connection self with
  | None =>
      (Raise (Exception_ "Database connection is not established. Use this method within a context manager."),
       self, w)
  | Some c =>
      match read_sql_query query c w with
      | (Return df, w') => (Return df, self, w')
      | (Raise e, w') =>
          (Raise (Exception_ ("Failed to execute query: " ++ str_exn e)), self, w')
      end
  end.

(** [with self as m: body(m)].  An [__enter__] that raises ends the
    statement; otherwise [__exit__] runs after the body, however the
    body ended, and as it returns [None] an exception of the body
    propagates. *)
Definition with_ {A} (body : Method A) : Method A := fun self w =>
  match __enter__ self w with
  | (Raise e, self1, w1) => (Raise e, self1, w1)
  | (Return _, self1, w1) =>
      match body self1 w1 with
      | (r, self2, w2) =>
          match __exit__ self2 w2 with
          | (_, self3, w3) => (r, self3, w3)
          end
      end
  end.

(** A body keeps the connector's handles when it does not rebind
    [self.connection] and [self.cursor]. *)
Definition keeps_handles {A} (body : Method A) : Prop :=
  forall self w,
    connection (body self w).1.2 = connection self /\
    cursor (body self w).1.2 = cursor self.

End Driver.

End Postgres.

(** * Part I, continued: the file reader, the fixtures and the test suites

    The code around the two classes: [parquet_reader.py] (class
    [ParquetReader]), the two [conftest.py] files, the parquet test
    module and the duplicate test of the CSV suite.  The file system,
    [pd.read_parquet], [os.walk] and [int] are section variables. *)

(** ** Exceptions outside the connector and the library, and outcomes *)

Module Outcome.

(** What a call can raise: an exception of the classes above,
    [FileNotFoundError] (an [Exception] too), or the [Failed] of
    [pytest.fail], which derives from [BaseException] and passes through
    [except Exception]. *)
Inductive raised : Type :=
| Exn (e : exn)
| FileNotFoundError (msg : string)
| Failed (msg : string).

Inductive outcome (A : Type) : Type :=
| Returned (a : A)
| Raised (r : raised).
Arguments Returned {A} a.
Arguments Raised {A} r.

#[global] Instance outcome_ret : MRet outcome := @Returned.
#[global] Instance outcome_bind : MBind outcome := fun A B k o =>
  match o with
  | Returned a => k a
  | Raised r => Raised r
  end.

End Outcome.
Export Outcome.

(** ** [class ParquetReader] *)

Module ParquetReader.
Import Pandas.

(** [s.startswith(prefix)] *)
Definition startswith (s prefix : string) : bool := String.prefix prefix s.

(** [s.endswith(suffix)] *)
Definition endswith (s suffix : string) : bool :=
  bool_decide (list_ascii_of_string suffix `suffix_of` list_ascii_of_string s).

(** [os.path.join(a, b)] (POSIX) *)
Definition path_join (a b : string) : string :=
  if startswith b "/" then b
  else if (String.length a =? 0)%nat || endswith a "/" then a ++ b
  else a ++ "/" ++ b.

Section FileSystem.

(** [os.path.exists], [os.path.isfile], [os.path.isdir] *)
Variable path_exists : string -> bool.
Variable isfile : string -> bool.
Variable isdir : string -> bool.
(** [pd.read_parquet(path, engine='pyarrow')] *)
Variable read_parquet : string -> result DataFrame.
(** [os.walk(path)]: the triples (root, dirs, files) in the order of the
    walk *)
Variable walk : string -> list (string * list string * list string).

Definition process (path : string) (include_subfolders : bool) : outcome DataFrame :=
  if negb (path_exists path)
  then Raised (FileNotFoundError ("Path does not exist: " ++ path))
  else
    match (df ← (if include_subfolders then read_parquet path
                 else if isfile path then read_parquet path
                 else if isdir path then read_parquet path
                 else Raise (ValueError ("Invalid path: " ++ path)));
           if empty df
           then Raise (ValueError ("No data found in Parquet files at path: " ++ path))
           else Return df) with
    | Return df => Returned df
    | Raise e =>
        Raised (Exn (Exception_ ("Failed to read Parquet file(s) from " ++ path
                                   ++ ": " ++ str_exn e)))
    end.

(** The inner loop of [list_parquet_files] *)
Definition collect_files (root : string) (files parquet_files : list string)
  : list string :=
  foldl (fun acc file =>
           if endswith file ".parquet" then (acc ++ [path_join root file])%list
           else acc)
        parquet_files files.

Definition list_parquet_files (path : string) : outcome (list string) :=
  if negb (path_exists path)
  then Raised (FileNotFoundError ("Path does not exist: " ++ path))
  else
    Returned (foldl (fun parquet_files entry => collect_files entry.1.1 entry.2 parquet_files)
                    [] (walk path)).

End FileSystem.

End ParquetReader.

(** ** [tests/conftest.py] of the framework *)

Module Conftest.
Import Pandas Postgres.

(** The options [pytest_addoption] registers, with their defaults *)
Definition pytest_addoption : list (string * option string) :=
  [("--db_host", Some "localhost");
   ("--db_name", Some "mydatabase");
   ("--db_port", Some "5434");
   ("--db_user", None);
   ("--db_password", None)].

(** [config.getoption(name)]: the value given on the command line, else
    the default of the option; an unknown name is a [ValueError]. *)
Definition getoption (supplied : gmap string string) (name : string)
  : outcome (option string) :=
  match supplied !! name with
  | Some v => Returned (Some v)
  | None =>
      match list_find (fun o => o.1 = name) pytest_addoption with
      | Some (_, o) => Returned (o.2)
      | None => Raised (Exn (ValueError ("no option named " ++ name)))
      end
  end.

(** Truth value of an optional string: [None] and [""] are false. *)
Definition truthy_str (v : option string) : bool :=
  match v with
  | Some (String _ _) => true
  | _ => false
  end.

(** The loop over [required_options] *)
Fixpoint check_required (supplied : gmap string string)
    (required_options : list string) : outcome unit :=
  match required_options with
  | [] => mret tt
  | option :: rest =>
      v ← getoption supplied option;
      if negb (truthy_str v)
      then Raised (Failed ("Missing required option: " ++ option))
      else check_required supplied rest
  end.

(** [pytest_configure]: the lines of the [markers] ini value after the
    call *)
Definition pytest_configure (supplied : gmap string string)
    (markers : list string) : outcome (list string) :=
  _ ← check_required supplied ["--db_user"; "--db_password"];
  mret (markers ++
    ["parquet_data: Mark tests for parquet data validation";
     "smoke: Mark tests as smoke tests";
     "facility_name_min_time_spent_per_visit_date: Tests for facility_name_min_time_spent_per_visit_date dataset";
     "facility_type_avg_time_spent_per_visit_date: Tests for facility_type_avg_time_spent_per_visit_date dataset";
     "patient_sum_treatment_cost_per_facility_type: Tests for patient_sum_treatment_cost_per_facility_type dataset"])%list.

Section Fixtures.

Variable connect_refused : Connector -> option string.
Variable cursor_refused : nat -> option string.
(** [int(s)] *)
Variable int_ : string -> result Z.

(** The fixture [db_connection] up to its [yield]; the five strings are
    the values of the options, which [pytest_configure] has checked.  The
    keyword arguments are evaluated before the connector is built, so a
    port that is not a number ends the fixture before any connection. *)
Definition db_connection_setup (db_host db_name db_port db_user db_password : string)
  : World -> outcome Connector * World := fun w =>
  match int_ db_port with
  | Raise e =>
      (Raised (Failed ("Failed to initialize PostgresConnectorContextManager: "
                         ++ str_exn e)), w)
  | Return port =>
      match __enter__ connect_refused cursor_refused
              (__init__ db_host db_name port db_user db_password) w with
      | (Return _, db_connector, w1) => (Returned db_connector, w1)
      | (Raise e, _, w1) =>
          (Raised (Failed ("Failed to initialize PostgresConnectorContextManager: "
                             ++ str_exn e)), w1)
      end
  end.


End Fixtures.

End Conftest.

(** ** [test_facility_name_min_time_spent_per_visit_date.py] *)

Module FacilityTests.
Import Pandas Postgres DataQualityLibrary.

Definition target_path : string :=
  "/parquet_data/facility_name_min_time_spent_per_visit_date".

(** The fixture [target_data] *)
Definition target_data (path_exists isfile isdir : string -> bool)
    (read_parquet : string -> result DataFrame) : outcome DataFrame :=
  ParquetReader.process path_exists isfile isdir read_parquet target_path true.

Definition test_check_target_dataset_is_not_empty (target_data : DataFrame)
  : result unit :=
  check_dataset_is_not_empty target_data.

Definition test_check_source_dataset_is_not_empty (source_data : DataFrame)
  : result unit :=
  check_dataset_is_not_empty source_data.

Definition test_check_row_count (source_data target_data : DataFrame) : result unit :=
  check_count source_data target_data.

Definition test_check_no_duplicates_in_target (to_string : DataFrame -> string)
    (target_data : DataFrame) : result unit :=
  check_duplicates to_string target_data (Some ["facility_name"; "visit_date"]) 10.

Definition test_check_not_null_values_in_target (target_data : DataFrame)
  : result unit :=
  check_not_null_values target_data
    ["facility_name"; "visit_date"; "min_time_spent"].

End FacilityTests.

(** ** The CSV suite: [tests/conftest.py] and [test_csv_file.py] *)

Module CsvSuite.
Import Pandas.

(** A collected test: the names of the marks on the test itself, in the
    order they were added, and of the marks of the nodes above it. *)
Record Item : Type := mkItem { own_markers : list string; inherited_markers : list string }.

(** [[mark.name for mark in item.iter_markers()]] *)
Definition iter_markers (item : Item) : list string :=
  own_markers item ++ inherited_markers item.

(** [item.add_marker(name)] *)
Definition add_marker (name : string) (item : Item) : Item :=
  mkItem (own_markers item ++ [name]) (inherited_markers item).

(** The body of the loop of [pytest_collection_modifyitems] *)
Definition mark_if_unmarked (item : Item) : Item :=
  let marks := iter_markers item in
  if bool_decide (marks = [])
     || ((Z.of_nat (length marks) =? 1) && bool_decide ("unmarked" ∈ marks))
  then add_marker "unmarked" item
  else item.

Definition pytest_collection_modifyitems (items : list Item) : list Item :=
  mark_if_unmarked <$> items.

(** [keep='first'] marks a row when an earlier row has the same cells. *)
Definition mark_later_duplicates (ks : list (list scalar)) : list bool :=
  imap (fun i k => bool_decide (k ∈ take i ks)) ks.

(** [df.duplicated()] with its defaults; on an [empty] frame the mask has
    no entry. *)
Definition duplicated_first (df : DataFrame) : list bool :=
  if empty df then [] else mark_later_duplicates (cells <$> rows df).

(** [mask.sum()] *)
Definition count_true (mask : list bool) : Z :=
  Z.of_nat (length (filter (fun b => b = true) mask)).

Definition test_duplicates (csv_data : DataFrame) : result unit :=
  let duplicate_count := count_true (duplicated_first csv_data) in
  assert_ (duplicate_count =? 0)
    ("Found " ++ str_int duplicate_count ++ " duplicate rows in the CSV file").

End CsvSuite.

(** * Part II: the properties *)

(** ** Double-precision arithmetic, on examples *)

Module Float64Facts.
Import Pandas DataQualityLibrary.

(** The double nearest to one tenth *)
Example round_tenth :
  Float64.round (Q2Qc (1 # 10)) = Q2Qc (3602879701896397 # 36028797018963968).
Proof. apply Qc_is_canon. by vm_compute. Qed.

(** Half-way between two subnormal doubles the even one is taken. *)
Example round_subnormal_tie :
  Float64.round (Q2Qc (3 # 2 ^ 1075)) = Q2Qc (1 # 2 ^ 1073).
Proof. apply Qc_is_canon. by vm_compute. Qed.

(** An integer beyond 53 bits is rounded when it becomes a double. *)
Example round_large_integer :
  Float64.round (Q2Qc (inject_Z (2 ^ 53 + 1))) = Q2Qc (inject_Z (2 ^ 53)).
Proof. apply Qc_is_canon. by vm_compute. Qed.

(** At the edge of the tolerance the rounding decides.  The two doubles
    below differ by more than a hundred-thousandth of the larger, and
    [math.isclose] with [rel_tol=1e-5] holds of them: the double [1e-5]
    is above one hundred-thousandth and the product is rounded. *)
Example isclose_at_the_edge :
  let a := Q2Qc (7747397420651045 # 140737488355328) in
  let b := Q2Qc (7747474895399999 # 140737488355328) in
  Float64.round a = a /\ Float64.round b = b
  /\ Qle_bool (Qabs (b - a)) ((1 # 100000) * b) = false
  /\ Float64.isclose rtol default_atol a b = true.
Proof.
  intros a b. split; [|split; [|split]].
  - apply Qc_is_canon. by vm_compute.
  - apply Qc_is_canon. by vm_compute.
  - by vm_compute.
  - by vm_compute.
Qed.

End Float64Facts.

(** ** The order of [sort_values] *)

Module Order.
Import Pandas.

(** What a three-way comparison must satisfy to sort with. *)
Class GoodCompare {A} (cmp : A -> A -> comparison) : Prop := {
  cmp_eq : forall x y, cmp x y = Eq <-> x = y;
  cmp_opp : forall x y, cmp y x = CompOpp (cmp x y);
  cmp_lt_trans : forall x y z, cmp x y = Lt -> cmp y z = Lt -> cmp x z = Lt
}.

Lemma cmp_trans `{GoodCompare A cmp} x y z c :
  cmp x y = c -> cmp y z = c -> cmp x z = c.
Proof.
  destruct c; intros Hxy Hyz.
  - apply cmp_eq in Hxy, Hyz. subst. by apply cmp_eq.
  - by eapply cmp_lt_trans.
  - rewrite cmp_opp. rewrite (cmp_opp y x) in Hxy. rewrite (cmp_opp z y) in Hyz.
    destruct (cmp y x) eqn:E1; try discriminate.
    destruct (cmp z y) eqn:E2; try discriminate.
    by rewrite (cmp_lt_trans _ _ _ E2 E1).
Qed.

#[global] Instance Z_good : GoodCompare Z.compare.
Proof.
  split.
  - apply Z.compare_eq_iff.
  - intros x y. apply Z.compare_antisym.
  - intros x y z. rewrite !Z.compare_lt_iff. lia.
Qed.

#[global] Instance Qc_good : GoodCompare Qccompare.
Proof.
  split.
  - intros x y. symmetry. apply Qceq_alt.
  - intros x y. unfold Qccompare. symmetry. apply Qcompare_antisym.
  - intros x y z. rewrite <- !Qclt_alt. apply Qclt_trans.
Qed.

Lemma ascii_compare_refl a : Ascii.compare a a = Eq.
Proof. unfold Ascii.compare. apply N.compare_refl. Qed.

Lemma ascii_compare_lt_trans a b c :
  Ascii.compare a b = Lt -> Ascii.compare b c = Lt -> Ascii.compare a c = Lt.
Proof. unfold Ascii.compare. rewrite !N.compare_lt_iff. lia. Qed.

Lemma string_compare_refl s : String.compare s s = Eq.
Proof. induction s as [|a s IH]; simpl; [done|]. by rewrite ascii_compare_refl. Qed.

Lemma string_compare_lt_trans s1 s2 s3 :
  String.compare s1 s2 = Lt -> String.compare s2 s3 = Lt ->
  String.compare s1 s3 = Lt.
Proof.
  revert s2 s3. induction s1 as [|a s1 IH]; intros [|b s2] [|c s3]; simpl; try done.
  destruct (Ascii.compare a b) eqn:Eab; try done;
    destruct (Ascii.compare b c) eqn:Ebc; try done; intros H1 H2.
  - apply Ascii.compare_eq_iff in Eab, Ebc. subst.
    rewrite ascii_compare_refl. by eapply IH.
  - apply Ascii.compare_eq_iff in Eab. subst. by rewrite Ebc.
  - apply Ascii.compare_eq_iff in Ebc. subst. by rewrite Eab.
  - by rewrite (ascii_compare_lt_trans _ _ _ Eab Ebc).
Qed.

#[global] Instance string_good : GoodCompare String.compare.
Proof.
  split.
  - intros x y. split; [apply String.compare_eq_iff|].
    intros ->. apply string_compare_refl.
  - intros x y. apply String.compare_antisym.
  - apply string_compare_lt_trans.
Qed.

#[global] Instance scalar_good : GoodCompare scalar_compare.
Proof.
  split.
  - intros [|x|x|x] [|y|y|y]; simpl; try (split; [done|congruence]).
    + split; [done|by intros _].
    + rewrite cmp_eq. split; congruence.
    + rewrite cmp_eq. split; congruence.
    + rewrite cmp_eq. split; congruence.
  - intros [|x|x|x] [|y|y|y]; simpl; try done; apply cmp_opp.
  - intros [|x|x|x] [|y|y|y] [|z|z|z]; simpl; try done; apply cmp_lt_trans.
Qed.

#[global] Instance list_good `{GoodCompare A cmp} : GoodCompare (list_compare cmp).
Proof.
  split.
  - apply list_compare_refl, cmp_eq.
  - intros x y. apply list_compare_antisym; [apply cmp_eq|apply cmp_opp].
  - intros x y z. apply list_compare_trans; [apply cmp_eq| |apply cmp_opp].
    intros; by eapply cmp_trans.
Qed.

Definition cells_le (k1 k2 : list scalar) : Prop := cells_compare k1 k2 <> Gt.

#[global] Instance cells_le_trans : Transitive cells_le.
Proof.
  intros x y z. unfold cells_le, cells_compare. intros Hxy Hyz.
  destruct (list_compare scalar_compare x y) eqn:E1; try done;
    destruct (list_compare scalar_compare y z) eqn:E2; try done.
  - by rewrite (cmp_trans _ _ _ _ E1 E2).
  - apply cmp_eq in E1. subst. by rewrite E2.
  - apply cmp_eq in E2. subst. by rewrite E1.
  - by rewrite (cmp_trans _ _ _ _ E1 E2).
Qed.

#[global] Instance cells_le_total : Total cells_le.
Proof.
  intros x y. unfold cells_le, cells_compare.
  rewrite (cmp_opp (cmp:=list_compare scalar_compare) x y).
  destruct (list_compare scalar_compare x y); simpl; auto.
Qed.

#[global] Instance cells_le_antisym : AntiSymm (=) cells_le.
Proof.
  intros x y. unfold cells_le, cells_compare.
  rewrite (cmp_opp (cmp:=list_compare scalar_compare) x y).
  destruct (list_compare scalar_compare x y) eqn:E; simpl; try done.
  intros _ _. by apply cmp_eq.
Qed.

#[global] Instance row_le_trans : Transitive row_le.
Proof. intros x y z. apply (cells_le_trans (cells x) (cells y) (cells z)). Qed.

#[global] Instance row_le_total : Total row_le.
Proof. intros x y. apply (cells_le_total (cells x) (cells y)). Qed.

(** Sorting by the full column tuple leaves one order of the cells. *)
Lemma sorted_cells_unique (l1 l2 : list Row) :
  cells <$> l1 ≡ₚ cells <$> l2 ->
  cells <$> merge_sort row_le l1 = cells <$> merge_sort row_le l2.
Proof.
  intros Hp.
  apply (StronglySorted_unique cells_le).
  - apply (StronglySorted_fmap _ row_le cells_le); [done|].
    apply StronglySorted_merge_sort; apply _.
  - apply (StronglySorted_fmap _ row_le cells_le); [done|].
    apply StronglySorted_merge_sort; apply _.
  - by rewrite !merge_sort_Permutation.
Qed.

End Order.

(** ** Lists, masks and strings *)

Module Masks.
Import Pandas.
Local Close Scope string_scope.

Lemma occurrences_app k l1 l2 :
  occurrences k (l1 ++ l2) = (occurrences k l1 + occurrences k l2)%nat.
Proof. unfold occurrences. by rewrite filter_app, length_app. Qed.

Lemma occurrences_cons k k' l :
  occurrences k (k' :: l) = ((if decide (k' = k) then 1 else 0) + occurrences k l)%nat.
Proof. unfold occurrences. rewrite filter_cons. by destruct (decide (k' = k)). Qed.

Lemma occurrences_pos k l : (0 < occurrences k l)%nat <-> k ∈ l.
Proof.
  unfold occurrences. split.
  - intros H. destruct (filter _ l) as [|x l'] eqn:E; [simpl in H; lia|].
    assert (x ∈ filter (fun k' => k' = k) l) as Hin by (rewrite E; left).
    by apply list_elem_of_filter in Hin as [-> ?].
  - intros H. assert (k ∈ filter (fun k' => k' = k) l) as Hin
      by (by apply list_elem_of_filter).
    destruct (filter _ l); [by apply elem_of_nil in Hin|simpl; lia].
Qed.

Lemma mark_all_duplicates_lookup ks i :
  mark_all_duplicates ks !! i = Some true
  <-> exists k j, ks !! i = Some k /\ ks !! j = Some k /\ i <> j.
Proof.
  unfold mark_all_duplicates. rewrite list_lookup_fmap.
  destruct (ks !! i) as [k|] eqn:Ei; simpl; [|split; [done|by intros (?&?&?&?)]].
  replace (occurrences k ks)
    with (occurrences k (take i ks ++ k :: drop (S i) ks))
    by (by rewrite take_drop_middle).
  rewrite occurrences_app, occurrences_cons, decide_True by done.
  split.
  - intros [= H%bool_decide_eq_true].
    assert (0 < occurrences k (take i ks) \/ 0 < occurrences k (drop (S i) ks))%nat
      as [Hl|Hr] by lia.
    + apply occurrences_pos, list_elem_of_lookup in Hl as [j Hj].
      apply lookup_take_Some in Hj as [Hj Hlt].
      exists k, j. repeat split; [done|lia].
    + apply occurrences_pos, list_elem_of_lookup in Hr as [j Hj].
      rewrite lookup_drop in Hj. exists k, (S i + j)%nat. repeat split; [done|lia].
  - intros (k' & j & [= <-] & Hj & Hne). f_equal. apply bool_decide_eq_true.
    destruct (decide (j < i)%nat) as [Hlt|Hge].
    + assert (k ∈ take i ks) as Hin%occurrences_pos; [|lia].
      apply list_elem_of_lookup. exists j. by apply lookup_take_Some.
    + assert (k ∈ drop (S i) ks) as Hin%occurrences_pos; [|lia].
      apply list_elem_of_lookup. exists (j - S i)%nat.
      rewrite lookup_drop. rewrite <- Hj. f_equal. lia.
Qed.

Lemma append_assoc (s1 s2 s3 : string) :
  ((s1 ++ s2) ++ s3 = s1 ++ (s2 ++ s3))%string.
Proof.
  induction s1 as [|a s1 IH]; [done|].
  change (String a ((s1 ++ s2) ++ s3) = String a (s1 ++ (s2 ++ s3)))%string.
  by rewrite IH.
Qed.

Lemma select_length_filter {A} (mask : list bool) (l : list A) :
  length mask = length l ->
  length (select mask l) = length (filter (fun b => b = true) mask).
Proof.
  revert l. induction mask as [|b mask IH]; intros [|x l]; simpl; try done.
  intros [= Hlen]. destruct b.
  - rewrite filter_cons_True by done. simpl. by rewrite IH.
  - rewrite filter_cons_False by done. by rewrite IH.
Qed.

Lemma filter_true_pos (mask : list bool) :
  (0 < length (filter (fun b => b = true) mask))%nat
  <-> exists i, mask !! i = Some true.
Proof.
  split.
  - intros H. destruct (filter _ mask) as [|b l] eqn:E; [simpl in H; lia|].
    assert (b ∈ filter (fun b => b = true) mask) as Hin by (rewrite E; left).
    apply list_elem_of_filter in Hin as [-> Hin].
    by apply list_elem_of_lookup in Hin.
  - intros [i Hi].
    assert (true ∈ filter (fun b => b = true) mask) as Hin.
    { apply list_elem_of_filter. split; [done|]. apply list_elem_of_lookup. eauto. }
    destruct (filter _ mask); [by apply elem_of_nil in Hin|simpl; lia].
Qed.

Lemma keys_of_length subset df ks :
  keys_of subset df = Return ks -> length ks = length (rows df).
Proof.
  unfold keys_of. destruct subset as [cs|]; simpl.
  - destruct (filter _ cs); [|done].
    intros [= <-]. by rewrite length_fmap.
  - intros [= <-]. by rewrite length_fmap.
Qed.

Lemma occurrences_NoDup k l : NoDup l -> k ∈ l -> occurrences k l = 1%nat.
Proof.
  induction 1 as [|x l Hx Hnd IH]; [by intros ?%elem_of_nil|].
  rewrite occurrences_cons. intros Hin%elem_of_cons.
  destruct (decide (x = k)) as [->|Hne].
  - destruct (occurrences k l) eqn:E; [done|].
    exfalso. apply Hx, occurrences_pos. lia.
  - destruct Hin as [->|Hin]; [done|]. by rewrite IH.
Qed.

Lemma marked_one_pair (l1 l2 l3 : list (list scalar)) k :
  NoDup (l1 ++ k :: l2 ++ l3) ->
  length (filter (fun b => b = true)
            (mark_all_duplicates (l1 ++ k :: l2 ++ k :: l3))) = 2%nat.
Proof.
  intros Hnd. unfold mark_all_duplicates.
  pose (ks := l1 ++ k :: l2 ++ k :: l3).
  change (length (filter (fun b => b = true)
            ((fun k0 => bool_decide (2 <= occurrences k0 ks)%nat)
               <$> (l1 ++ k :: l2 ++ k :: l3))) = 2%nat).
  assert (Hocc : forall x, occurrences x ks
            = (occurrences x (l1 ++ k :: l2 ++ l3) + (if decide (k = x) then 1 else 0))%nat).
  { intros x. unfold ks.
    rewrite !occurrences_app, !occurrences_cons, !occurrences_app, occurrences_cons. lia. }
  assert (Hk : occurrences k ks = 2%nat).
  { rewrite Hocc, decide_True by done. rewrite occurrences_NoDup; [done|done|].
    apply elem_of_app. right. left. }
  assert (Hother : forall l, l ⊆ l1 ++ l2 ++ l3 ->
            filter (fun b => b = true)
              ((fun k0 => bool_decide (2 <= occurrences k0 ks)%nat) <$> l) = []).
  { intros l Hl. induction l as [|x l IH]; [done|].
    rewrite fmap_cons, filter_cons.
    assert (x ∈ l1 ++ l2 ++ l3) as Hx by (apply Hl; left).
    assert (x <> k) as Hne.
    { intros ->. apply NoDup_app in Hnd as (_ & Hdisj & Hnd2).
      apply NoDup_cons in Hnd2 as [Hk2 _].
      apply elem_of_app in Hx as [Hx|Hx]; [|done].
      apply (Hdisj k Hx). left. }
    assert (occurrences x ks = 1%nat) as Hone.
    { rewrite Hocc, decide_False by done. rewrite occurrences_NoDup; [done|done|].
      rewrite !elem_of_app in Hx. rewrite elem_of_app, elem_of_cons, elem_of_app.
      tauto. }
    rewrite Hone. rewrite bool_decide_false by lia. rewrite decide_False by done.
    apply IH. intros y Hy. apply Hl. by right. }
  rewrite !fmap_app, !fmap_cons, fmap_app, fmap_cons.
  rewrite !filter_app, !filter_cons, filter_app, filter_cons.
  rewrite Hk. rewrite bool_decide_true by lia. rewrite decide_True by done.
  rewrite !Hother.
  - done.
  - intros y Hy. rewrite !elem_of_app. tauto.
  - intros y Hy. rewrite !elem_of_app. tauto.
  - intros y Hy. rewrite !elem_of_app. tauto.
Qed.

End Masks.

(** ** The checks on one or two tables *)

Module Checks.
Import Pandas DataQualityLibrary Masks.
Local Open Scope string_scope.

(** C4.  [check_count] returns exactly when the two tables have the same
    number of rows, whatever their columns and cells; when it does not
    return it raises an [AssertionError] whose message gives the two
    counts and the absolute value of their difference. *)
Theorem check_count_passes_iff_same_length (source_df target_df : DataFrame) :
  (check_count source_df target_df = Return tt
     <-> length (rows source_df) = length (rows target_df))
  /\ (check_count source_df target_df = Return tt
      \/ check_count source_df target_df
         = Raise (AssertionError
                    ("Row count mismatch: Source has "
                       ++ str_int (len source_df) ++ " rows, "
                       ++ "but Target has " ++ str_int (len target_df)
                       ++ " rows. " ++ "Difference: "
                       ++ str_int (Z.abs (len source_df - len target_df))
                       ++ " rows."))).
Proof.
  unfold check_count, assert_, len.
  destruct (Z.eqb_spec (Z.of_nat (length (rows source_df)))
                       (Z.of_nat (length (rows target_df)))) as [E|E].
  - split; [|by left]. split; [intros _; lia|done].
  - split; [split; [done|intros; lia]|]. by right.
Qed.

(** C5.  [check_dataset_is_not_empty] raises an [AssertionError] exactly
    when the table has no row or no column, and returns exactly when it
    has at least one row and one column. *)
Theorem check_dataset_is_not_empty_iff (df : DataFrame) :
  (raises_assertion (check_dataset_is_not_empty df)
     <-> (rows df = [] \/ columns df = []))
  /\ (check_dataset_is_not_empty df = Return tt
      <-> (rows df <> [] /\ columns df <> [])).
Proof.
  unfold check_dataset_is_not_empty, empty, len.
  destruct (rows df) as [|r rs], (columns df) as [|c cs]; simpl;
    (split; split; intros H; try done; try tauto; try (by destruct H)).
  all: try (by left). all: try (by right).
  all: destruct H as [H|H]; done.
Qed.

(** *** Nulls in named columns *)

(** The values of the column labelled [c] (of the first one when several
    columns carry the label, none when no column does) *)
Definition values_of (c : string) (df : DataFrame) : list scalar :=
  match list_find (fun c' => c' = c) (columns df) with
  | Some (j, _) => (fun r => cell j r) <$> rows df
  | None => []
  end.

Definition null_count (c : string) (df : DataFrame) : Z :=
  Z.of_nat (length (filter (fun v => v = Null) (values_of c df))).

(** The lines of the report: one per named column that holds a null, in
    the order of the names, with the number of nulls. *)
Definition null_report (df : DataFrame) (column_names : list string) : string :=
  String.concat nl
    ((fun c => "  - " ++ c ++ ": " ++ str_int (null_count c df) ++ " null values")
       <$> filter (fun c => 0 < null_count c df) column_names).

Lemma isna_sum_nulls vs :
  isna_sum vs = Z.of_nat (length (filter (fun v => v = Null) vs)).
Proof.
  unfold isna_sum. f_equal. f_equal.
  apply list_filter_iff. intros [| | |]; simpl; split; congruence.
Qed.

Lemma label_count_absent c df : label_count c df = 0%nat <-> c ∉ columns df.
Proof.
  unfold label_count. rewrite length_zero_iff_nil. split.
  - intros E Hin.
    assert (c ∈ filter (fun c' => c' = c) (columns df)) as Hc
        by (by apply list_elem_of_filter).
    rewrite E in Hc. by apply elem_of_nil in Hc.
  - intros Hc. induction (columns df) as [|x l IH]; [done|].
    rewrite not_elem_of_cons in Hc. destruct Hc as [Hne Hc].
    rewrite filter_cons, decide_False by done. by apply IH.
Qed.

Lemma positions_length (l : list string) c (f : nat -> nat) :
  length (filter (fun p : nat * string => p.2 = c) (imap (fun j c' => (f j, c')) l))
  = length (filter (fun c' => c' = c) l).
Proof.
  revert f. induction l as [|x l IH]; intros f; [done|].
  rewrite imap_cons, !filter_cons.
  change (imap ((fun j c' => (f j, c')) ∘ S) l)
    with (imap (fun j c' => ((f ∘ S) j, c')) l).
  cbn [snd]. destruct (decide (x = c)); simpl;
    by rewrite (IH (fun j => f (S j))).
Qed.

Lemma positions_first (l : list string) c (f : nat -> nat) :
  (filter (fun p : nat * string => p.2 = c) (imap (fun j c' => (f j, c')) l)).*1
    !! 0%nat
  = (fun p => f p.1) <$> list_find (fun c' => c' = c) l.
Proof.
  revert f. induction l as [|x l IH]; intros f; [done|].
  rewrite imap_cons, filter_cons.
  change (imap ((fun j c' => (f j, c')) ∘ S) l)
    with (imap (fun j c' => ((f ∘ S) j, c')) l).
  cbn [snd list_find]. destruct (decide (x = c)); simpl; [done|].
  rewrite (IH (fun j => f (S j))). by destruct (list_find _ l) as [[]|].
Qed.

(** [df[c]] is the column when exactly one column carries the label. *)
Lemma getitem_unique c df :
  label_count c df = 1%nat -> getitem c df = Return (OneColumn (values_of c df)).
Proof.
  unfold getitem, positions, label_count, values_of. intros H.
  pose proof (positions_length (columns df) c (fun j => j)) as Hlen.
  pose proof (positions_first (columns df) c (fun j => j)) as Hfirst.
  rewrite H in Hlen. rewrite <- (length_fmap fst) in Hlen.
  destruct ((filter _ (imap _ (columns df))).*1) as [|j [|j' js]];
    simpl in Hlen; try done.
  simpl in Hfirst. destruct (list_find _ _) as [[j0 c0]|]; [|done].
  by injection Hfirst as ->.
Qed.

(** [df[c]] is a frame when several columns carry the label. *)
Lemma getitem_repeated c df :
  (2 <= label_count c df)%nat -> exists sub, getitem c df = Return (SubFrame sub).
Proof.
  unfold getitem, positions, label_count. intros H.
  pose proof (positions_length (columns df) c (fun j => j)) as Hlen.
  rewrite <- (length_fmap fst) in Hlen.
  destruct ((filter _ (imap _ (columns df))).*1) as [|j [|j' js]];
    simpl in Hlen; [lia|lia|]. by eexists.
Qed.

Lemma null_count_pos_iff c df :
  0 < null_count c df <-> Null ∈ values_of c df.
Proof.
  unfold null_count. split.
  - intros H. destruct (filter _ _) as [|v l] eqn:E; [simpl in H; lia|].
    assert (v ∈ filter (fun v => v = Null) (values_of c df)) as Hin
        by (rewrite E; left).
    apply list_elem_of_filter in Hin as [-> ?]. done.
  - intros H.
    assert (Null ∈ filter (fun v => v = Null) (values_of c df)) as Hin
        by (by apply list_elem_of_filter).
    destruct (filter _ _); [by apply elem_of_nil in Hin|simpl; lia].
Qed.

(** The loop of [check_not_null_values] either stops with a [ValueError]
    at the first name that is not the label of exactly one column, or
    collects the named columns that hold nulls. *)
Lemma collect_null_columns_spec df column_names acc :
  match collect_null_columns df column_names acc with
  | Return null_columns =>
      Forall (fun c => label_count c df = 1%nat) column_names
      /\ null_columns
         = (acc ++ ((fun c => (c, null_count c df))
                      <$> filter (fun c => 0 < null_count c df) column_names))%list
  | Raise (ValueError _) =>
      Exists (fun c => label_count c df <> 1%nat) column_names
  | Raise _ => False
  end.
Proof.
  revert acc. induction column_names as [|c cs IH]; intros acc; simpl.
  - split; [constructor|]. by rewrite app_nil_r.
  - unfold has_column at 1. case_bool_decide as Hc; simpl.
    + destruct (decide (label_count c df = 1%nat)) as [Hone|Hmany].
      * rewrite (getitem_unique _ _ Hone). simpl.
        rewrite isna_sum_nulls. fold (null_count c df).
        specialize (IH (if null_count c df >? 0
                        then (acc ++ [(c, null_count c df)])%list else acc)).
        destruct (collect_null_columns _ _ _) as [ncs|[]]; try done.
        -- destruct IH as [Hall ->]. split; [by constructor|].
           rewrite filter_cons. destruct (Z.gtb_spec (null_count c df) 0).
           ++ rewrite decide_True by lia. simpl. by rewrite <- app_assoc.
           ++ by rewrite decide_False by lia.
        -- by right.
      * destruct (getitem_repeated c df) as [sub ->]; [|by left].
        assert (label_count c df <> 0%nat); [|lia].
        intros Hzero. by apply label_count_absent in Hzero.
    + left. apply label_count_absent in Hc. lia.
Qed.

(** C3, amended.  The outcomes of [check_not_null_values] are exactly
    these: a [ValueError] when some named column is not a column of the
    table or is the label of several columns; an [AssertionError] when
    every named column is the label of exactly one column and at least
    one holds a null, with one line per such column giving its number of
    nulls; a normal return when every named column is the label of
    exactly one column and none holds a null. *)
Theorem check_not_null_values_outcomes (df : DataFrame) (column_names : list string) :
  match check_not_null_values df column_names with
  | Raise (ValueError _) =>
      Exists (fun c => c ∉ columns df) column_names
      \/ Exists (fun c => (2 <= label_count c df)%nat) column_names
  | Raise (AssertionError msg) =>
      Forall (fun c => label_count c df = 1%nat) column_names
      /\ Exists (fun c => Null ∈ values_of c df) column_names
      /\ msg = "Found null values in the following columns:" ++ nl
                 ++ null_report df column_names
  | Return _ =>
      Forall (fun c => label_count c df = 1%nat) column_names
      /\ Forall (fun c => Null ∉ values_of c df) column_names
  | Raise _ => False
  end.
Proof.
  unfold check_not_null_values.
  pose proof (collect_null_columns_spec df column_names []) as H.
  destruct (collect_null_columns df column_names []) as [ncs|e]; simpl.
  - destruct H as [Hall ->]. simpl.
    destruct (filter _ column_names) as [|c cs] eqn:E; simpl.
    + split; [done|]. rewrite Forall_forall. intros c Hc Hnull.
      apply null_count_pos_iff in Hnull.
      assert (c ∈ filter (fun c => 0 < null_count c df) column_names) as Hin
          by (by apply list_elem_of_filter).
      rewrite E in Hin. by apply elem_of_nil in Hin.
    + split; [done|]. split.
      * apply Exists_exists. exists c.
        assert (c ∈ filter (fun c => 0 < null_count c df) column_names) as Hin
            by (rewrite E; left).
        apply list_elem_of_filter in Hin as [Hpos Hin]. split; [done|].
        by apply null_count_pos_iff.
      * unfold null_report. rewrite E. f_equal. f_equal.
        rewrite <- list_fmap_compose. done.
  - destruct e; try done.
    apply Exists_exists in H as (c & Hin & Hc).
    destruct (label_count c df) as [|[|n]] eqn:E; [|done|].
    + left. apply Exists_exists. exists c. split; [done|].
      by apply label_count_absent.
    + right. apply Exists_exists. exists c. split; [done|]. lia.
Qed.

(** C3 as stated fails on a table in which two columns carry a named
    label: the named column exists and no cell is null, and the call
    raises a [ValueError], because the number of nulls is then a Series
    and its truth value is asked for. *)
Lemma check_not_null_values_repeated_label_ValueError :
  let df := mkFrame ["facility_name"; "facility_name"]
              [mkRow 0 [Str "Clinic"; Str "Annex"]] in
  let outcome := check_not_null_values df ["facility_name"] in
  Forall (fun c => c ∈ columns df) ["facility_name"]
  /\ Forall (fun r => Null ∉ cells r) (rows df)
  /\ outcome
     = Raise (ValueError "The truth value of a Series is ambiguous. Use a.empty, a.bool(), a.item(), a.any() or a.all().")
  /\ ~ returns outcome /\ ~ raises_assertion outcome.
Proof.
  intros df outcome. split; [|split; [|split]].
  - repeat constructor.
  - repeat constructor. simpl. rewrite !elem_of_cons, elem_of_nil.
    intros [H|[H|[]]]; discriminate H.
  - by vm_compute.
  - vm_compute. tauto.
Qed.

(** *** Duplicated rows *)

(** The columns [check_duplicates] compares: the named ones, or all of
    them when the list is [None] or empty. *)
Definition selection (column_names : option (list string)) : option (list string) :=
  if truthy column_names then column_names else None.

(** Two rows at different positions have the same key. *)
Definition has_duplicate_pair (ks : list (list scalar)) : Prop :=
  exists i j k, i <> j /\ ks !! i = Some k /\ ks !! j = Some k.

(** On a table with no row or no column the mask is empty: without rows
    the check returns, with rows the selection raises. *)
Lemma check_duplicates_empty to_string df column_names max_display :
  empty df = true ->
  check_duplicates to_string df column_names max_display
  = if bool_decide (rows df = []) then Return tt
    else Raise (IndexingError "Unalignable boolean Series provided as indexer (index of the boolean Series and of the indexed object do not match).").
Proof.
  intros He. unfold check_duplicates, duplicated, getitem_mask. rewrite He.
  destruct (rows df) as [|r rs] eqn:E; by destruct (truthy column_names).
Qed.

Lemma check_duplicates_no_rows to_string df column_names max_display :
  rows df = [] ->
  check_duplicates to_string df column_names max_display = Return tt.
Proof.
  intros E. rewrite check_duplicates_empty; [by rewrite E|].
  unfold empty, len. by rewrite E.
Qed.

Lemma check_duplicates_unfold to_string df column_names max_display ks :
  empty df = false ->
  keys_of (selection column_names) df = Return ks ->
  check_duplicates to_string df column_names max_display
  = let duplicates := loc_mask (mark_all_duplicates ks) df in
    if (len duplicates >? 0)%Z then
      Raise (AssertionError
        ("Found " ++ str_int (len duplicates) ++ " duplicate rows in the dataset."
           ++ (nl ++ nl ++ "First " ++ str_int (Z.min (len duplicates) max_display)
                 ++ " duplicate rows:" ++ nl
                 ++ to_string (head max_display duplicates) ++ nl)
           ++ (if ((if (len duplicates >? max_display)%Z
                    then (len duplicates - max_display)%Z else 0%Z) >? 0)%Z
               then nl ++ "... and "
                      ++ str_int (if (len duplicates >? max_display)%Z
                                  then (len duplicates - max_display)%Z else 0%Z)
                      ++ " more duplicate rows not shown."
               else "")))
    else Return tt.
Proof.
  intros He Hks. pose proof (keys_of_length _ _ _ Hks) as Hlen.
  unfold check_duplicates, selection, duplicated, getitem_mask in *. rewrite He.
  destruct (truthy column_names); rewrite Hks; simpl.
  all: rewrite bool_decide_true
         by (unfold mark_all_duplicates; by rewrite length_fmap); simpl.
  all: destruct (len _ >? 0)%Z; [|done].
  all: unfold assert_; do 2 f_equal.
  all: destruct (_ >? 0)%Z; rewrite ?append_assoc; repeat f_equal.
Qed.

(** Some row is flagged exactly when two rows share a key. *)
Lemma flagged_rows_pos (df : DataFrame) (ks : list (list scalar)) :
  length ks = length (rows df) ->
  (0 < length (select (mark_all_duplicates ks) (rows df)))%nat
  <-> has_duplicate_pair ks.
Proof.
  intros Hlen.
  rewrite select_length_filter by (unfold mark_all_duplicates; by rewrite length_fmap).
  rewrite filter_true_pos. split.
  - intros [i (k & j & Hi & Hj & Hne)%mark_all_duplicates_lookup].
    by exists i, j, k.
  - intros (i & j & k & Hne & Hi & Hj). exists i.
    apply mark_all_duplicates_lookup. by exists k, j.
Qed.

(** A table in which two rows share a key has a row; with a column it is
    not [empty]. *)
Lemma duplicate_pair_not_empty df ks :
  columns df <> [] -> length ks = length (rows df) -> has_duplicate_pair ks ->
  empty df = false.
Proof.
  intros Hcols Hlen (i & j & k & Hne & Hi & Hj). unfold empty, len.
  apply lookup_lt_Some in Hi. rewrite Hlen in Hi.
  destruct (rows df); [simpl in Hi; lia|]. by destruct (columns df).
Qed.

Lemma check_duplicates_returns_iff to_string df column_names max_display ks :
  columns df <> [] ->
  keys_of (selection column_names) df = Return ks ->
  check_duplicates to_string df column_names max_display = Return tt
  <-> ~ has_duplicate_pair ks.
Proof.
  intros Hcols Hks. pose proof (keys_of_length _ _ _ Hks) as Hlen.
  destruct (empty df) eqn:He.
  - rewrite check_duplicates_no_rows.
    + split; [|done].
      intros _ Hpair. by rewrite (duplicate_pair_not_empty _ _ Hcols Hlen Hpair) in He.
    + unfold empty, len in He. destruct (rows df); [done|]. by destruct (columns df).
  - rewrite (check_duplicates_unfold _ _ _ _ _ He Hks). cbv zeta.
    rewrite <- (flagged_rows_pos df ks Hlen).
    unfold len, loc_mask. cbn [rows].
    destruct (Z.gtb_spec
                (Z.of_nat (length (select (mark_all_duplicates ks) (rows df)))) 0).
    + split; [done|lia].
    + split; [lia|done].
Qed.

(** C9.  An empty list of column names is handled as no list at all:
    [check_duplicates(df, [])] has the outcome of
    [check_duplicates(df, None)], message included; and on a table with
    at least one column it returns exactly when no two rows of the table
    are equal on all columns (the empty key does not make every row a
    duplicate). *)
Theorem check_duplicates_empty_list_is_none
    (to_string : DataFrame -> string) (df : DataFrame) (max_display : Z) :
  check_duplicates to_string df (Some []) max_display
  = check_duplicates to_string df None max_display
  /\ (columns df <> [] ->
      (check_duplicates to_string df (Some []) max_display = Return tt
       <-> ~ has_duplicate_pair (cells <$> rows df))).
Proof.
  split; [reflexivity|]. intros Hcols. by apply check_duplicates_returns_iff.
Qed.

Lemma check_duplicates_empty_list_is_none_witness :
  let df := mkFrame ["facility_name"]
              [mkRow 0 [Str "Clinic"]; mkRow 1 [Str "Annex"]] in
  check_duplicates (fun _ => "") df (Some []) 10
  = check_duplicates (fun _ => "") df None 10
  /\ check_duplicates (fun _ => "") df (Some []) 10 = Return tt.
Proof.
  intros df.
  destruct (check_duplicates_empty_list_is_none (fun _ => "") df 10) as [Hsame Hiff].
  split; [exact Hsame|]. apply Hiff; [done|].
  intros (i & j & k & Hne & Hi & Hj).
  destruct i as [|[|i]], j as [|[|j]]; simpl in Hi, Hj; try done; congruence.
Defined.

(** C2, amended.  On a table with at least one column, when every
    selected column is a column of the table ([ks] are the keys of the
    rows on the selected columns): [check_duplicates] flags every row
    whose key is also the key of a row at another position, first
    occurrences included; if two rows share a key it raises an
    [AssertionError] whose message starts with the number of flagged rows,
    which is 2 when exactly one pair of rows shares a key; if no two rows
    share a key it returns. *)
Theorem check_duplicates_flags_every_occurrence
    (to_string : DataFrame -> string) (df : DataFrame)
    (column_names : option (list string)) (max_display : Z)
    (ks : list (list scalar)) :
  columns df <> [] ->
  keys_of (selection column_names) df = Return ks ->
  exists flagged : list bool,
    length flagged = length (rows df)
    /\ (forall i, flagged !! i = Some true
                  <-> exists k j, ks !! i = Some k /\ ks !! j = Some k /\ i <> j)
    /\ (has_duplicate_pair ks ->
        exists rest,
          check_duplicates to_string df column_names max_display
          = Raise (AssertionError
                     ("Found " ++ str_int (Z.of_nat (length (select flagged (rows df))))
                        ++ " duplicate rows in the dataset." ++ rest)))
    /\ (forall l1 l2 l3 k,
          ks = (l1 ++ k :: l2 ++ k :: l3)%list -> NoDup (l1 ++ k :: l2 ++ l3)%list ->
          length (select flagged (rows df)) = 2%nat)
    /\ (~ has_duplicate_pair ks ->
        check_duplicates to_string df column_names max_display = Return tt).
Proof.
  intros Hcols Hks. exists (mark_all_duplicates ks).
  pose proof (keys_of_length _ _ _ Hks) as Hlen.
  assert (Hmlen : length (mark_all_duplicates ks) = length (rows df)).
  { unfold mark_all_duplicates. by rewrite length_fmap. }
  split; [done|]. split; [apply mark_all_duplicates_lookup|].
  split; [|split].
  - intros Hpair.
    rewrite (check_duplicates_unfold _ _ _ _ _
               (duplicate_pair_not_empty _ _ Hcols Hlen Hpair) Hks). cbv zeta.
    apply (flagged_rows_pos df ks Hlen) in Hpair.
    unfold len, loc_mask. cbn [rows].
    destruct (Z.gtb_spec
                (Z.of_nat (length (select (mark_all_duplicates ks) (rows df)))) 0);
      [|lia].
    eexists. reflexivity.
  - intros l1 l2 l3 k -> Hnd. rewrite select_length_filter by done.
    by apply marked_one_pair.
  - by apply check_duplicates_returns_iff.
Qed.

(** C2 as stated fails twice.  When a named column is not in the table
    the outcome is the [KeyError] of [duplicated], neither a return nor
    an [AssertionError], although the rows differ.  On a table with rows
    and no column any two rows are equal on all columns, and no
    [AssertionError] is raised: the mask of [duplicated] is empty and
    the selection with it raises. *)
Lemma check_duplicates_absent_column_KeyError :
  let df := mkFrame ["a"] [mkRow 0 [Str "x"]; mkRow 1 [Str "y"]] in
  let outcome := check_duplicates (fun _ => "") df (Some ["b"]) 10 in
  let no_column := mkFrame [] [mkRow 0 []; mkRow 1 []] in
  let outcome' := check_duplicates (fun _ => "") no_column None 10 in
  (outcome = Raise (KeyError "b")
   /\ ~ returns outcome /\ ~ raises_assertion outcome)
  /\ (has_duplicate_pair (cells <$> rows no_column)
      /\ (exists msg, outcome' = Raise (IndexingError msg))
      /\ ~ raises_assertion outcome').
Proof.
  intros df outcome no_column outcome'. split; [vm_compute; tauto|]. split.
  - by exists 0%nat, 1%nat, [].
  - split; [by eexists|]. vm_compute. tauto.
Qed.

Lemma check_duplicates_flags_every_occurrence_witness :
  let df := mkFrame ["facility_name"; "visit_date"; "min_time_spent"]
              [mkRow 0 [Str "Clinic"; Str "2024-01-02"; Ts 3];
               mkRow 1 [Str "Hospital"; Str "2024-01-02"; Ts 5];
               mkRow 2 [Str "Clinic"; Str "2024-01-02"; Ts 3]] in
  exists rest,
    check_duplicates (fun _ => "") df (Some ["facility_name"; "visit_date"]) 10
    = Raise (AssertionError ("Found 2 duplicate rows in the dataset." ++ rest)).
Proof.
  intros df.
  pose (ks := [[Str "Clinic"; Str "2024-01-02"];
               [Str "Hospital"; Str "2024-01-02"];
               [Str "Clinic"; Str "2024-01-02"]]).
  assert (Hcols : columns df <> []) by done.
  assert (Hks : keys_of (selection (Some ["facility_name"; "visit_date"])) df
                = Return ks) by (by vm_compute).
  destruct (check_duplicates_flags_every_occurrence (fun _ => "") df
              (Some ["facility_name"; "visit_date"]) 10 ks Hcols Hks)
    as (flagged & Hlen & Hflag & Hraise & Hpair & Hret).
  destruct Hraise as [rest Hrest].
  { exists 0%nat, 2%nat, [Str "Clinic"; Str "2024-01-02"]. by repeat split. }
  rewrite (Hpair [] [[Str "Hospital"; Str "2024-01-02"]] []
                 [Str "Clinic"; Str "2024-01-02"] eq_refl) in Hrest.
  - exists rest. exact Hrest.
  - apply (bool_decide_unpack _). by vm_compute.
Defined.

End Checks.

(** ** The completeness check *)

Module Completeness.
Import Pandas Order DataQualityLibrary.

(** The cells of the rows, without the labels *)
Definition body (df : DataFrame) : list (list scalar) := cells <$> rows df.

(** Frames with the same columns and the same rows up to their order and
    their labels *)
Definition same_rows (df1 df2 : DataFrame) : Prop :=
  columns df1 = columns df2 /\ body df1 ≡ₚ body df2.

Definition relabel (cs : list (list scalar)) : list Row :=
  imap (fun i c => mkRow (Z.of_nat i) c) cs.

Lemma reset_index_relabel df :
  reset_index df = mkFrame (columns df) (relabel (body df)).
Proof.
  unfold reset_index, relabel, body. f_equal.
  generalize (rows df). intros l.
  rewrite imap_fmap. done.
Qed.

Lemma body_relabel cs : cells <$> relabel cs = cs.
Proof.
  unfold relabel. rewrite fmap_imap. simpl.
  induction cs as [|c cs IH] ; [done|].
  simpl. f_equal. rewrite <- IH at 2. done.
Qed.

Lemma homogeneous_spec cmp l :
  homogeneous cmp l = true <-> forall a b, a ∈ l -> b ∈ l -> cmp a b = true.
Proof.
  unfold homogeneous. rewrite forallb_forall. split.
  - intros H a b Ha Hb. apply list_elem_of_In in Ha, Hb.
    specialize (H a Ha). rewrite forallb_forall in H. by apply H.
  - intros H a Ha. apply forallb_forall. intros b Hb.
    apply H; by apply list_elem_of_In.
Qed.

Lemma homogeneous_perm cmp l1 l2 :
  l1 ≡ₚ l2 -> homogeneous cmp l1 = homogeneous cmp l2.
Proof.
  intros Hp. apply eq_true_iff_eq. rewrite !homogeneous_spec.
  by setoid_rewrite Hp.
Qed.

Lemma column_cells_body j df :
  (fun r => cell j r) <$> rows df = (fun c => default Null (c !! j)) <$> body df.
Proof. unfold body. by rewrite <- list_fmap_compose. Qed.

Lemma orderable_same_rows df1 df2 :
  same_rows df1 df2 -> orderable df1 = orderable df2.
Proof.
  intros [Hc Hp]. unfold orderable. rewrite Hc.
  apply eq_true_iff_eq. rewrite !forallb_forall.
  apply forall_proper. intros j. apply forall_proper. intros _.
  rewrite !column_cells_body.
  by rewrite (homogeneous_perm _ _ _ (fmap_Permutation _ _ _ Hp)).
Qed.

Lemma repeated_label_same_columns df1 df2 :
  columns df1 = columns df2 -> repeated_label df1 = repeated_label df2.
Proof. intros Hc. unfold repeated_label, label_count. by rewrite Hc. Qed.


Lemma count_NoDup (l : list string) c :
  NoDup l -> (length (filter (fun c' => c' = c) l) <= 1)%nat.
Proof.
  induction 1 as [|x l Hx Hnd IH]; [simpl; lia|].
  rewrite filter_cons. destruct (decide (x = c)) as [->|]; [|done].
  simpl. destruct (filter _ l) as [|y l'] eqn:E; [simpl; lia|].
  exfalso. apply Hx.
  assert (y ∈ filter (fun c' => c' = c) l) as Hy by (rewrite E; left).
  by apply list_elem_of_filter in Hy as [-> ?].
Qed.

Lemma count_le_NoDup (l : list string) :
  Forall (fun c => ~ (2 <= length (filter (fun c' => c' = c) l))%nat) l -> NoDup l.
Proof.
  induction l as [|x l IH]; [constructor|]. intros E.
  apply Forall_cons in E as [Hx E]. rewrite filter_cons, decide_True in Hx by done.
  simpl in Hx. constructor.
  - intros Hin.
    assert (x ∈ filter (fun c' => c' = x) l) as Hf by (by apply list_elem_of_filter).
    destruct (filter _ l); [by apply elem_of_nil in Hf|simpl in Hx; lia].
  - apply IH. eapply Forall_impl; [exact E|]. intros c Hc. simpl in *.
    rewrite filter_cons in Hc. destruct (decide (x = c)); simpl in Hc; lia.
Qed.

(** No label is repeated exactly when the labels are pairwise different. *)
Lemma repeated_label_None df : repeated_label df = None <-> NoDup (columns df).
Proof.
  unfold repeated_label, label_count.
  destruct (list_find _ _) as [[j c]|] eqn:E; simpl.
  - split; [done|]. intros Hnd. exfalso.
    apply list_find_Some in E as (Hj & Hc & _).
    pose proof (count_NoDup _ c Hnd). lia.
  - split; [intros _|done]. apply list_find_None in E. by apply count_le_NoDup.
Qed.

Lemma sortable_spec df :
  sortable df = true <-> NoDup (columns df) /\ orderable df = true.
Proof.
  unfold sortable. rewrite andb_true_iff, bool_decide_eq_true.
  by rewrite repeated_label_None.
Qed.

Lemma same_rows_reset_index df : same_rows (reset_index df) df.
Proof.
  rewrite reset_index_relabel. split; [done|].
  unfold body at 1. simpl. by rewrite body_relabel.
Qed.

(** The two statements [reset_index] then [sort_values] then
    [reset_index] of [check_data_completeness], for one table *)
Definition normalized (df : DataFrame) : result DataFrame :=
  reset_index <$> sort_values_all (reset_index df).

(** The sorted table: the rows in the one ascending order of their cells,
    labelled from 0 *)
Definition sorted_table (df : DataFrame) : DataFrame :=
  mkFrame (columns df) (relabel (cells <$> merge_sort row_le (rows df))).

Lemma reset_index_sorted df :
  reset_index (mkFrame (columns df) (merge_sort row_le (rows df))) = sorted_table df.
Proof. by rewrite (reset_index_relabel (mkFrame _ _)). Qed.

Lemma sorted_table_same_rows df1 df2 :
  same_rows df1 df2 -> sorted_table df1 = sorted_table df2.
Proof.
  intros [Hc Hp]. unfold sorted_table. rewrite Hc. f_equal. f_equal.
  by apply sorted_cells_unique.
Qed.

(** The outcome of the sort, up to the labels it leaves, depends on the
    columns and on the rows up to their order. *)
Lemma sort_values_all_same_rows df1 df2 :
  same_rows df1 df2 ->
  reset_index <$> sort_values_all df1 = reset_index <$> sort_values_all df2.
Proof.
  intros H. unfold sort_values_all.
  rewrite (repeated_label_same_columns _ _ (proj1 H)), (orderable_same_rows _ _ H).
  destruct (repeated_label df2); [done|]. destruct (orderable df2).
  - change (Return (reset_index (mkFrame (columns df1) (merge_sort row_le (rows df1))))
            = Return (reset_index (mkFrame (columns df2) (merge_sort row_le (rows df2))))).
    by rewrite !reset_index_sorted, (sorted_table_same_rows _ _ H).
  - by rewrite (proj1 H).
Qed.


Lemma normalized_sortable df :
  sortable df = true -> normalized df = Return (sorted_table df).
Proof.
  intros Hs. unfold normalized.
  rewrite (sort_values_all_same_rows _ _ (same_rows_reset_index df)).
  unfold sort_values_all, sortable in *.
  apply andb_true_iff in Hs as [Hl%bool_decide_eq_true Ho]. rewrite Hl, Ho.
  change (Return (reset_index (mkFrame (columns df) (merge_sort row_le (rows df))))
          = Return (sorted_table df)).
  by rewrite reset_index_sorted.
Qed.

(** When the sort does not return it raises a [ValueError] or a
    [TypeError]. *)
Lemma normalized_unsortable df :
  sortable df = false ->
  exists msg, normalized df = Raise (ValueError msg)
              \/ normalized df = Raise (TypeError msg).
Proof.
  intros Hs. unfold normalized.
  rewrite (sort_values_all_same_rows _ _ (same_rows_reset_index df)).
  unfold sort_values_all, sortable in *.
  destruct (repeated_label df) as [c|]; [eexists; by left|].
  rewrite bool_decide_true in Hs by done. simpl in Hs. rewrite Hs.
  case_bool_decide; eexists; by right.
Qed.

Lemma normalized_returns df sorted :
  normalized df = Return sorted -> sortable df = true /\ sorted = sorted_table df.
Proof.
  intros H. destruct (sortable df) eqn:Hs.
  - rewrite (normalized_sortable _ Hs) in H. by injection H as <-.
  - destruct (normalized_unsortable _ Hs) as [msg [E|E]]; congruence.
Qed.




Lemma is_assertion_error_or_value e :
  is_assertion_error e = true -> is_assertion_or_value_error e = true.
Proof. by destruct e. Qed.

Lemma assert_frame_equal_raises left right rtol e :
  assert_frame_equal left right rtol = Raise e -> is_assertion_error e = true.
Proof.
  unfold assert_frame_equal, assert_.
  repeat match goal with
         | |- (if ?b then _ else _) ≫= _ = _ -> _ =>
             destruct b; simpl; [|by intros [= <-]]
         end.
  destruct (forallb _ _); [done|by intros [= <-]].
Qed.

(** What a comparison that returns has checked *)
Lemma assert_frame_equal_returns left right rtol :
  assert_frame_equal left right rtol = Return tt
  <-> columns left = columns right
      /\ length (rows left) = length (rows right)
      /\ label <$> rows left = label <$> rows right
      /\ forall j r1 r2, (j < length (columns left))%nat ->
           (r1, r2) ∈ zip (rows left) (rows right) ->
           almost_equal rtol default_atol (cell j r1) (cell j r2) = true.
Proof.
  unfold assert_frame_equal, assert_. split.
  - repeat match goal with
           | |- (if bool_decide ?P then _ else _) ≫= _ = _ -> _ =>
               destruct (bool_decide_reflect P); simpl; [|done]
           end.
    destruct (forallb _ _) eqn:E; [intros _|done].
    repeat split; [done|tauto|done|].
    intros j r1 r2 Hj Hin. rewrite forallb_forall in E.
    specialize (E j). unfold column_almost_equal in E.
    rewrite forallb_forall in E.
    apply (E (proj2 (in_seq _ _ _) (conj (Nat.le_0_l j) Hj)) (r1, r2)).
    by apply list_elem_of_In.
  - intros (Hc & Hlen & Hlab & Hcells).
    rewrite (bool_decide_true (length (rows left) = length (rows right) /\ _))
      by (split; [done|by rewrite Hc]).
    rewrite !bool_decide_true by done. simpl.
    assert (forallb (column_almost_equal rtol default_atol (rows left) (rows right))
                    (seq 0 (length (columns left))) = true) as ->; [|done].
    apply forallb_forall. intros j [_ Hj]%in_seq. unfold column_almost_equal.
    apply forallb_forall. intros [r1 r2] Hin%list_elem_of_In.
    by apply Hcells.
Qed.


(** Every row has one cell per column. *)
Definition rectangular (df : DataFrame) : Prop :=
  Forall (fun c => length c = length (columns df)) (body df).

Lemma well_formed_rectangular df : well_formed df -> rectangular df.
Proof. intros [_ H]. unfold rectangular, body. by apply Forall_fmap. Qed.






Section Completeness.

Variable to_string : DataFrame -> string.
Variable merge_outer_indicator : DataFrame -> DataFrame -> result DataFrame.

Abbreviation check := (check_data_completeness to_string merge_outer_indicator).

Local Open Scope string_scope.







Lemma normalized_len df sorted :
  normalized df = Return sorted -> len sorted = len df.
Proof.
  intros [_ ->]%normalized_returns. unfold len, sorted_table, relabel. cbn [rows].
  by rewrite length_imap, length_fmap, (Permutation_length (merge_sort_Permutation _ _)).
Qed.

(** C6.  When both tables were sorted, the comparison of the sorted
    tables failed and the outer join raises, [check_data_completeness]
    raises an [AssertionError] (the exception of the join does not
    escape) whose message is the heading, the two row counts with the
    absolute value of their difference, the text of the join's exception
    and the fixed list of possible causes. *)
Theorem check_data_completeness_merge_failure
    (source_df target_df source_df_sorted target_df_sorted : DataFrame)
    (max_display : Z) (e merge_error : exn) :
  normalized source_df = Return source_df_sorted ->
  normalized target_df = Return target_df_sorted ->
  assert_frame_equal source_df_sorted target_df_sorted rtol = Raise e ->
  merge_outer_indicator source_df_sorted target_df_sorted = Raise merge_error ->
  check source_df target_df max_display
  = Raise (AssertionError
      ("Data completeness check failed:" ++ nl ++ nl
         ++ "Row count - Source: " ++ str_int (len source_df)
         ++ ", Target: " ++ str_int (len target_df) ++ nl
         ++ "Difference: " ++ str_int (Z.abs (len source_df - len target_df))
         ++ " rows" ++ nl ++ nl
         ++ nl ++ "Unable to perform detailed comparison: "
         ++ str_exn merge_error ++ nl
         ++ nl ++ "Possible causes:" ++ nl
         ++ "- Data type mismatches between source and target" ++ nl
         ++ "- Column name differences" ++ nl
         ++ "- Date/datetime format inconsistencies" ++ nl)).
Proof.
  intros Hs Ht He Hm. unfold check_data_completeness.
  fold (normalized source_df). fold (normalized target_df).
  rewrite Hs, Ht. unfold mbind, result_bind, Py.bind. rewrite He.
  rewrite (is_assertion_error_or_value _ (assert_frame_equal_raises _ _ _ _ He)).
  unfold difference_lines. rewrite Hm. unfold mbind, result_bind, Py.bind.
  unfold count_lines, possible_causes, abs_diff.
  rewrite (normalized_len _ _ Hs), (normalized_len _ _ Ht).
  by rewrite !Masks.append_assoc.
Qed.

End Completeness.

(** A number given as a fraction *)
Definition num (q : Q) : scalar := Num (Q2Qc q).



Lemma check_data_completeness_merge_failure_witness :
  let to_string := fun _ : DataFrame => "" in
  let merge := fun _ _ : DataFrame =>
    @Raise DataFrame (ValueError "You are trying to merge on object and int64 columns") in
  let A := mkFrame ["min_time_spent"] [mkRow 0 [Str "5"]] in
  let B := mkFrame ["min_time_spent"] [mkRow 0 [num 5]; mkRow 1 [num 6]] in
  raises_assertion (check_data_completeness to_string merge A B 10).
Proof.
  intros ts mg A B.
  rewrite (check_data_completeness_merge_failure ts mg A B
             (mkFrame ["min_time_spent"] [mkRow 0 [Str "5"]])
             (mkFrame ["min_time_spent"] [mkRow 0 [num 5]; mkRow 1 [num 6]])
             10 (AssertionError "DataFrame shape mismatch")
             (ValueError "You are trying to merge on object and int64 columns")).
  - exact I.
  - by vm_compute.
  - by vm_compute.
  - by vm_compute.
  - done.
Defined.

End Completeness.

(** ** The completeness check on frame objects *)

Module Objects.
Import Pandas DataQualityLibrary.

(** [m], run in [h], has the outcome [r] and leaves the store [h'], in
    which every object of [h] is as it was. *)
Definition runs {A} (m : Store.St A) (h : gmap Store.ref DataFrame)
    (r : result A) (h' : gmap Store.ref DataFrame) : Prop :=
  m h = (r, h') /\ h ⊆ h'.

Lemma runs_ret {A} (a : A) h : runs (mret a) h (Return a) h.
Proof. by split. Qed.

Lemma runs_bind {A B} (m : Store.St A) (k : A -> Store.St B) h a h1 r h2 :
  runs m h (Return a) h1 -> runs (k a) h1 r h2 -> runs (m ≫= k) h r h2.
Proof.
  intros [Hm Hs1] [Hk Hs2]. split; [|by etrans].
  unfold mbind, Store.St_bind. by rewrite Hm.
Qed.

Lemma runs_bind_raise {A B} (m : Store.St A) (k : A -> Store.St B) h e h1 :
  runs m h (Raise e) h1 -> runs (m ≫= k) h (Raise e) h1.
Proof.
  intros [Hm Hs1]. split; [|done]. unfold mbind, Store.St_bind. by rewrite Hm.
Qed.

Lemma runs_lift {A} (r : result A) h : runs (Store.lift r) h r h.
Proof. by split. Qed.

Lemma runs_deref h l df : h !! l = Some df -> runs (Store.deref l) h (Return df) h.
Proof. intros H. split; [|done]. unfold Store.deref. by rewrite H. Qed.

Lemma runs_new h df :
  exists l, runs (Store.new df) h (Return l) (<[l := df]> h) /\ h !! l = None.
Proof.
  exists (fresh (dom h)).
  assert (h !! fresh (dom h) = None) as Hfresh
      by (apply not_elem_of_dom, is_fresh).
  split; [|done]. split; [done|]. by apply insert_subseteq.
Qed.

(** A call that hands back a new object holding [df] *)
Definition allocates (m : Store.St Store.ref) (h : gmap Store.ref DataFrame)
    (df : DataFrame) : Prop :=
  exists l h', runs m h (Return l) h' /\ h' !! l = Some df.

Lemma allocates_new h df : allocates (Store.new df) h df.
Proof.
  destruct (runs_new h df) as (l & Hrun & _).
  exists l, (<[l := df]> h). split; [done|]. apply lookup_insert_eq.
Qed.

Lemma allocates_bind {A} (m : Store.St A) (k : A -> Store.St Store.ref) h a h1 df :
  runs m h (Return a) h1 -> allocates (k a) h1 df -> allocates (m ≫= k) h df.
Proof.
  intros Hm (l & h2 & Hk & Hl). exists l, h2. split; [|done]. by eapply runs_bind.
Qed.

Lemma allocates_reset_index h l df :
  h !! l = Some df -> allocates (Store.reset_index l) h (reset_index df).
Proof.
  intros H. eapply allocates_bind; [by apply runs_deref|apply allocates_new].
Qed.

Lemma allocates_head h l df n :
  h !! l = Some df -> allocates (Store.head n l) h (head n df).
Proof.
  intros H. eapply allocates_bind; [by apply runs_deref|apply allocates_new].
Qed.

Lemma runs_len h l df :
  h !! l = Some df -> runs (Store.len l) h (Return (len df)) h.
Proof. intros H. eapply runs_bind; [by apply runs_deref|apply runs_ret]. Qed.

(** A call that either hands back a new object holding the frame of the
    pure call or raises what the pure call raises *)
Definition follows (m : Store.St Store.ref) (h : gmap Store.ref DataFrame)
    (r : result DataFrame) : Prop :=
  match r with
  | Return df => allocates m h df
  | Raise e => exists h', runs m h (Raise e) h'
  end.

Lemma follows_lift_new h (r : result DataFrame) :
  follows (df ← Store.lift r; Store.new df) h r.
Proof.
  destruct r as [df|e]; simpl.
  - eapply allocates_bind; [apply runs_lift|apply allocates_new].
  - exists h. apply runs_bind_raise, runs_lift.
Qed.

Lemma follows_bind {A} (m : Store.St A) (k : A -> Store.St Store.ref) h a h1 r :
  runs m h (Return a) h1 -> follows (k a) h1 r -> follows (m ≫= k) h r.
Proof.
  intros Hm. destruct r as [df|e]; simpl.
  - by apply allocates_bind.
  - intros [h' Hk]. exists h'. by eapply runs_bind.
Qed.

Lemma follows_sort_values_all h l df :
  h !! l = Some df -> follows (Store.sort_values_all l) h (sort_values_all df).
Proof.
  intros H. eapply follows_bind; [by apply runs_deref|apply follows_lift_new].
Qed.

Lemma follows_drop_column h l df c :
  h !! l = Some df -> follows (Store.drop_column c l) h (drop_column c df).
Proof.
  intros H. eapply follows_bind; [by apply runs_deref|apply follows_lift_new].
Qed.

(** A call with the outcome of the pure call [r] *)
Definition tracks {A} (m : Store.St A) (h : gmap Store.ref DataFrame)
    (r : result A) : Prop :=
  exists h', runs m h r h'.

Lemma tracks_ret {A} (a : A) h : tracks (mret a) h (Return a).
Proof. exists h. apply runs_ret. Qed.

Lemma tracks_lift {A} (r : result A) h : tracks (Store.lift r) h r.
Proof. exists h. apply runs_lift. Qed.

Lemma tracks_bind {A B} (m : Store.St A) (k : A -> Store.St B) h a r :
  tracks m h (Return a) ->
  (forall h1, h ⊆ h1 -> tracks (k a) h1 r) ->
  tracks (m ≫= k) h r.
Proof.
  intros [h1 Hm] Hk. destruct (Hk h1 (proj2 Hm)) as [h2 Hk2].
  exists h2. by eapply runs_bind.
Qed.

Lemma tracks_bind_raise {A B} (m : Store.St A) (k : A -> Store.St B) h e :
  tracks m h (Raise e) -> tracks (m ≫= k) h (Raise e).
Proof. intros [h1 Hm]. exists h1. by apply runs_bind_raise. Qed.

Lemma tracks_bind_new {B} (m : Store.St Store.ref) (k : Store.ref -> Store.St B)
    h df r :
  allocates m h df ->
  (forall l h1, h ⊆ h1 -> h1 !! l = Some df -> tracks (k l) h1 r) ->
  tracks (m ≫= k) h r.
Proof.
  intros (l & h1 & Hm & Hl) Hk. destruct (Hk l h1 (proj2 Hm) Hl) as [h2 Hk2].
  exists h2. by eapply runs_bind.
Qed.

Lemma follows_then {B} (m : Store.St Store.ref) (k : Store.ref -> Store.St B) h
    (r : result DataFrame) (k' : DataFrame -> result B) :
  follows m h r ->
  (forall df l h1, h ⊆ h1 -> h1 !! l = Some df -> tracks (k l) h1 (k' df)) ->
  tracks (m ≫= k) h (r ≫= k').
Proof.
  intros Hm Hk. destruct r as [df|e]; simpl in Hm.
  - eapply tracks_bind_new; [done|]. intros l h1 Hsub Hl. by eapply Hk.
  - by apply tracks_bind_raise.
Qed.

Lemma tracks_try_return {A} (body : Store.St A) handler h a :
  tracks body h (Return a) -> tracks (Store.try_except body handler) h (Return a).
Proof.
  intros [h1 [Hm Hs]]. exists h1. split; [|done].
  unfold Store.try_except. by rewrite Hm.
Qed.

Lemma tracks_try_raise {A} (body : Store.St A) handler h e r :
  tracks body h (Raise e) ->
  (forall h1, h ⊆ h1 -> tracks (handler e) h1 r) ->
  tracks (Store.try_except body handler) h r.
Proof.
  intros [h1 [Hm Hs]] Hh. destruct (Hh h1 Hs) as [h2 [Hr Hs2]].
  exists h2. split; [|by etrans]. unfold Store.try_except. by rewrite Hm.
Qed.

Lemma tracks_len h l df : h !! l = Some df -> tracks (Store.len l) h (Return (len df)).
Proof. intros H. exists h. by apply runs_len. Qed.

Lemma follows_where_equal h l df c v :
  h !! l = Some df ->
  follows (Store.where_equal c v l) h
    (values ← Pandas.column c df;
     mret (loc_mask ((fun x => bool_decide (x = v)) <$> values) df)).
Proof.
  intros H. eapply follows_bind; [by apply runs_deref|].
  destruct (column c df) as [values|e]; simpl.
  - eapply allocates_bind; [apply runs_lift|apply allocates_new].
  - exists h. apply runs_bind_raise, runs_lift.
Qed.

Section Library.

Variable to_string : DataFrame -> string.
Variable merge_outer_indicator : DataFrame -> DataFrame -> result DataFrame.

Lemma follows_merge_side h l merged side :
  h !! l = Some merged ->
  follows (merge_side_st l side) h (merge_side merged side).
Proof.
  intros H. unfold merge_side_st, merge_side.
  pose proof (follows_where_equal h l merged "_merge" (Str side) H) as Hw.
  destruct (column "_merge" merged) as [values|e]; simpl in *.
  - destruct Hw as (l1 & h1 & Hrun & Hl1).
    eapply follows_bind; [apply Hrun|]. by apply follows_drop_column.
  - destruct Hw as [h1 Hrun]. exists h1. by apply runs_bind_raise.
Qed.

Lemma follows_merge h l1 l2 df1 df2 :
  h !! l1 = Some df1 -> h !! l2 = Some df2 ->
  follows (merge_st merge_outer_indicator l1 l2) h (merge_outer_indicator df1 df2).
Proof.
  intros H1 H2. eapply follows_bind; [by apply runs_deref|].
  eapply follows_bind; [by apply runs_deref|]. apply follows_lift_new.
Qed.

Lemma tracks_to_string h l df :
  h !! l = Some df -> tracks (to_string_st to_string l) h (Return (to_string df)).
Proof.
  intros H. exists h. eapply runs_bind; [by apply runs_deref|apply runs_ret].
Qed.

Lemma tracks_missing_lines h l df max_display :
  h !! l = Some df ->
  tracks (missing_lines_st to_string l max_display) h
         (Return (missing_lines to_string df max_display)).
Proof.
  intros H. unfold missing_lines_st.
  eapply tracks_bind_new; [by apply allocates_head|].
  intros sample h1 Hsub Hsample.
  eapply tracks_bind; [apply tracks_len; by eapply lookup_weaken|].
  intros h2 Hsub2.
  eapply tracks_bind; [apply tracks_to_string; by eapply lookup_weaken|].
  intros h3 Hsub3. apply tracks_ret.
Qed.

Lemma tracks_extra_lines h l df max_display :
  h !! l = Some df ->
  tracks (extra_lines_st to_string l max_display) h
         (Return (extra_lines to_string df max_display)).
Proof.
  intros H. unfold extra_lines_st.
  eapply tracks_bind_new; [by apply allocates_head|].
  intros sample h1 Hsub Hsample.
  eapply tracks_bind; [apply tracks_len; by eapply lookup_weaken|].
  intros h2 Hsub2.
  eapply tracks_bind; [apply tracks_to_string; by eapply lookup_weaken|].
  intros h3 Hsub3. apply tracks_ret.
Qed.

(** The statements of the inner [try], as a pure computation *)
Definition difference_lines_body (df1 df2 : DataFrame) (max_display : Z)
  : result string :=
  merged ← merge_outer_indicator df1 df2;
  missing_in_target ← merge_side merged "left_only";
  extra_in_target ← merge_side merged "right_only";
  mret (((if (len missing_in_target >? 0)%Z
          then missing_lines to_string missing_in_target max_display else "")
           ++ (if (len extra_in_target >? 0)%Z
               then extra_lines to_string extra_in_target max_display else ""))%string).

Lemma difference_lines_of_body df1 df2 max_display :
  difference_lines to_string merge_outer_indicator df1 df2 max_display
  = match difference_lines_body df1 df2 max_display with
    | Return text => text
    | Raise merge_error => possible_causes merge_error
    end.
Proof.
  unfold difference_lines, difference_lines_body.
  destruct (merge_outer_indicator df1 df2) as [merged|e]; simpl; [|done].
  destruct (merge_side merged "left_only") as [missing|e]; simpl; [|done].
  by destruct (merge_side merged "right_only") as [extra|e].
Qed.

Lemma tracks_difference_lines h l1 l2 df1 df2 max_display :
  h !! l1 = Some df1 -> h !! l2 = Some df2 ->
  tracks (difference_lines_st to_string merge_outer_indicator l1 l2 max_display) h
         (Return (difference_lines to_string merge_outer_indicator df1 df2 max_display)).
Proof.
  intros H1 H2. rewrite difference_lines_of_body. unfold difference_lines_st.
  assert (tracks
    (merged ← merge_st merge_outer_indicator l1 l2;
     missing_in_target ← merge_side_st merged "left_only";
     extra_in_target ← merge_side_st merged "right_only";
     n_missing ← Store.len missing_in_target;
     part1 ← (if (n_missing >? 0)%Z
              then missing_lines_st to_string missing_in_target max_display
              else mret "");
     n_extra ← Store.len extra_in_target;
     part2 ← (if (n_extra >? 0)%Z
              then extra_lines_st to_string extra_in_target max_display
              else mret "");
     mret ((part1 ++ part2)%string)) h (difference_lines_body df1 df2 max_display))
    as Hbody.
  { unfold difference_lines_body.
    apply follows_then; [by apply follows_merge|].
    intros merged lm h1 Hsub1 Hlm.
    apply follows_then; [by apply follows_merge_side|].
    intros missing lmiss h2 Hsub2 Hlmiss.
    apply follows_then; [apply follows_merge_side; by eapply lookup_weaken|].
    intros extra lext h3 Hsub3 Hlext.
    eapply tracks_bind; [apply tracks_len; by eapply lookup_weaken|].
    intros h4 Hsub4.
    eapply (tracks_bind _ _ _
              (if (len missing >? 0)%Z
               then missing_lines to_string missing max_display else "")).
    { destruct (len missing >? 0)%Z; [|apply tracks_ret].
      apply tracks_missing_lines. eapply lookup_weaken; [|done].
      by eapply lookup_weaken. }
    intros h5 Hsub5.
    eapply tracks_bind.
    { apply tracks_len. eapply lookup_weaken; [|done]. by eapply lookup_weaken. }
    intros h6 Hsub6.
    eapply (tracks_bind _ _ _
              (if (len extra >? 0)%Z
               then extra_lines to_string extra max_display else "")).
    { destruct (len extra >? 0)%Z; [|apply tracks_ret].
      apply tracks_extra_lines. eapply lookup_weaken; [|done].
      eapply lookup_weaken; [|done]. by eapply lookup_weaken. }
    intros h7 Hsub7. apply tracks_ret. }
  destruct (difference_lines_body df1 df2 max_display) as [text|e].
  - by apply tracks_try_return.
  - eapply tracks_try_raise; [done|]. intros h1 _. apply tracks_ret.
Qed.

Lemma tracks_count_lines h l1 l2 df1 df2 :
  h !! l1 = Some df1 -> h !! l2 = Some df2 ->
  tracks (count_lines_st l1 l2) h (Return (count_lines df1 df2)).
Proof.
  intros H1 H2. exists h.
  eapply runs_bind; [by apply runs_len|].
  eapply runs_bind; [by apply runs_len|]. apply runs_ret.
Qed.

Lemma follows_sort_then_reset h l df :
  h !! l = Some df ->
  follows (s ← Store.sort_values_all l; Store.reset_index s) h
          (reset_index <$> sort_values_all df).
Proof.
  intros H. pose proof (follows_sort_values_all h l df H) as Hsort.
  destruct (sort_values_all df) as [sorted|e]; simpl in *.
  - destruct Hsort as (ls & h1 & Hrun & Hls).
    eapply allocates_bind; [done|]. by apply allocates_reset_index.
  - destruct Hsort as [h1 Hrun]. exists h1. by apply runs_bind_raise.
Qed.

Lemma tracks_assert_frame_equal h l1 l2 df1 df2 rtol :
  h !! l1 = Some df1 -> h !! l2 = Some df2 ->
  tracks (Store.assert_frame_equal l1 l2 rtol) h (assert_frame_equal df1 df2 rtol).
Proof.
  intros H1 H2. exists h.
  eapply runs_bind; [by apply runs_deref|].
  eapply runs_bind; [by apply runs_deref|]. apply runs_lift.
Qed.

(** The check on frame objects has the outcome of the check on their
    frames. *)
Lemma tracks_check_data_completeness h source_df target_df A B max_display :
  h !! source_df = Some A -> h !! target_df = Some B ->
  tracks (check_data_completeness_st to_string merge_outer_indicator
            source_df target_df max_display) h
         (check_data_completeness to_string merge_outer_indicator A B max_display).
Proof.
  intros HA HB. unfold check_data_completeness_st, check_data_completeness.
  eapply tracks_bind_new; [by apply allocates_reset_index|].
  intros lA h1 Hsub1 HlA.
  eapply tracks_bind_new;
    [apply allocates_reset_index; by eapply lookup_weaken|].
  intros lB h2 Hsub2 HlB. cbv zeta.
  apply follows_then;
    [apply follows_sort_then_reset; by eapply lookup_weaken|].
  intros sA lsA h3 Hsub3 HlsA.
  apply follows_then.
  { apply follows_sort_then_reset. eapply lookup_weaken; [|done]. done. }
  intros sB lsB h4 Hsub4 HlsB.
  assert (h4 !! lsA = Some sA) as HlsA' by (by eapply lookup_weaken).
  pose proof (tracks_assert_frame_equal h4 lsA lsB sA sB rtol HlsA' HlsB) as Hcmp.
  destruct (assert_frame_equal sA sB rtol) as [[]|e].
  - by apply tracks_try_return.
  - eapply tracks_try_raise; [done|]. intros h5 Hsub5.
    destruct (is_assertion_or_value_error e); [|apply tracks_lift].
    eapply tracks_bind.
    { apply tracks_count_lines; by eapply lookup_weaken. }
    intros h6 Hsub6.
    eapply tracks_bind.
    { apply tracks_difference_lines.
      - eapply lookup_weaken; [|done]. by eapply lookup_weaken.
      - eapply lookup_weaken; [|done]. by eapply lookup_weaken. }
    intros h7 Hsub7. apply tracks_lift.
Qed.

(** C7.  [check_data_completeness], called on two frame objects of the
    store (which may be one object), has the outcome of the check on
    their frames and leaves both objects, and every other object that
    existed before the call, holding the frame they held: columns, rows,
    order of the rows and index labels.  This holds whether the check
    returns or raises. *)
Theorem check_data_completeness_leaves_inputs
    (h : gmap Store.ref DataFrame) (source_df target_df : Store.ref)
    (A B : DataFrame) (max_display : Z) :
  h !! source_df = Some A -> h !! target_df = Some B ->
  let run := check_data_completeness_st to_string merge_outer_indicator
               source_df target_df max_display h in
  run.1 = check_data_completeness to_string merge_outer_indicator A B max_display
  /\ run.2 !! source_df = Some A
  /\ run.2 !! target_df = Some B
  /\ (forall l df, h !! l = Some df -> run.2 !! l = Some df).
Proof.
  intros HA HB run.
  destruct (tracks_check_data_completeness h source_df target_df A B max_display HA HB)
    as (h' & Hrun & Hsub).
  unfold run. rewrite Hrun. simpl.
  repeat split; try done; try (by eapply lookup_weaken).
  intros l df Hl. by eapply lookup_weaken.
Qed.

End Library.

Lemma check_data_completeness_leaves_inputs_witness :
  let to_string := fun _ : DataFrame => "" in
  let merge := fun _ _ : DataFrame => @Raise DataFrame (ValueError "") in
  let A := mkFrame ["facility_name"]
             [mkRow 4 [Str "Clinic"]; mkRow 2 [Str "Annex"]] in
  let B := mkFrame ["facility_name"] [mkRow 9 [Str "Clinic"]] in
  let h : gmap Store.ref DataFrame := <[1%positive := A]> (<[2%positive := B]> ∅) in
  let run := check_data_completeness_st to_string merge 1%positive 2%positive 10 h in
  raises_assertion run.1
  /\ run.2 !! 1%positive = Some A /\ run.2 !! 2%positive = Some B.
Proof.
  intros ts mg A B h run.
  destruct (check_data_completeness_leaves_inputs ts mg h 1%positive 2%positive
              A B 10 eq_refl eq_refl) as (Hout & HA & HB & _).
  split; [|by split]. fold run in Hout. rewrite Hout. by vm_compute.
Defined.

End Objects.

(** ** The connector *)

Module Session.
Import Pandas Postgres.

Section Driver.

Variable connect_refused : Connector -> option string.
Variable cursor_refused : nat -> option string.
Variable query_result : string -> result DataFrame.

(** A successful [__enter__] binds both handles, and both are open. *)
Lemma enter_opens self w self1 w1 :
  __enter__ connect_refused cursor_refused self w = (Return tt, self1, w1) ->
  exists c k,
    connection self1 = Some c /\ cursor self1 = Some k
    /\ c ∈ open_connections w1 /\ k ∈ open_cursors w1.
Proof.
  unfold __enter__, psycopg2_connect, connection_cursor.
  destruct (connect_refused self); [done|].
  destruct (cursor_refused (next_handle w)); [done|].
  intros [= <- <-]. eexists _, _. simpl. repeat split; set_solver.
Qed.

(** [get_data_sql] does not rebind the handles. *)
Lemma get_data_sql_keeps_handles query :
  keeps_handles (get_data_sql query_result query).
Proof.
  intros self w. unfold get_data_sql, read_sql_query.
  destruct (connection self) as [c|] eqn:E; [|simpl; by rewrite E].
  case_bool_decide; [destruct (query_result query)|]; simpl; by rewrite E.
Qed.

(** C8, amended.  After a successful [__enter__] that opened connection
    [c] and cursor [k], a [with] block whose body leaves
    [self.connection] and [self.cursor] bound as they were ends, whether
    the body returned or raised, with the outcome of the body, with [k]
    and [c] closed, and with the closing of the cursor followed by the
    closing of the connection as the last two events. *)
Theorem with_closes_cursor_then_connection {A} (body : Method A)
    (self self1 : Connector) (w w1 : World) :
  __enter__ connect_refused cursor_refused self w = (Return tt, self1, w1) ->
  connection (body self1 w1).1.2 = connection self1 ->
  cursor (body self1 w1).1.2 = cursor self1 ->
  exists c k,
    connection self1 = Some c /\ cursor self1 = Some k
    /\ c ∈ open_connections w1 /\ k ∈ open_cursors w1
    /\ let ended := with_ connect_refused cursor_refused body self w in
       ended.1.1 = (body self1 w1).1.1
       /\ (c ∉ open_connections (ended.2))
       /\ (k ∉ open_cursors (ended.2))
       /\ trace (ended.2)
          = (trace ((body self1 w1).2)
               ++ [CursorClosed k; ConnectionClosed c])%list.
Proof.
  intros Henter Hc' Hk'.
  destruct (enter_opens _ _ _ _ Henter) as (c & k & Hc & Hk & Hoc & Hok).
  exists c, k. do 4 (split; [done|]).
  intros ended. unfold ended, with_. rewrite Henter.
  destruct (body self1 w1) as [[r self2] w2]. simpl in Hc', Hk'.
  unfold __exit__. rewrite Hc', Hk', Hc, Hk. simpl.
  split; [done|]. split; [|split].
  - intros [_ Hn]%elem_of_difference. by apply Hn, elem_of_singleton.
  - intros [_ Hn]%elem_of_difference. by apply Hn, elem_of_singleton.
  - by rewrite <- app_assoc.
Qed.

(** C10, amended.  Whatever the query, [get_data_sql] submits it
    exactly when [self.connection] is bound.  Called while
    [self.connection] is [None], as it is from the construction of the
    connector until a connection is made, it raises the exception that
    says the connection is not established and leaves the connector and
    the world as they were; called while [self.connection] is bound, to
    an open connection or to a closed one, it submits the query once. *)
Theorem get_data_sql_requires_connection (query : string)
    (self : Connector) (w : World) :
  (connection self = None ->
   get_data_sql query_result query self w
   = (Raise (Exception_ "Database connection is not established. Use this method within a context manager."),
      self, w))
  /\ (forall c, connection self = Some c ->
       trace ((get_data_sql query_result query self w).2)
       = (trace w ++ [ReadSqlQuery c query])%list)
  /\ (forall db_host db_name db_port db_user db_password,
       connection (__init__ db_host db_name db_port db_user db_password) = None)
  /\ (forall msg, connect_refused self = Some msg ->
       connection (__enter__ connect_refused cursor_refused self w).1.2
       = connection self).
Proof.
  split; [|split; [|split]].
  - intros H. unfold get_data_sql. by rewrite H.
  - intros c H. unfold get_data_sql, read_sql_query. rewrite H.
    case_bool_decide; [destruct (query_result query)|]; done.
  - done.
  - intros msg H. unfold __enter__, psycopg2_connect. by rewrite H.
Qed.

(** [__exit__] leaves [self.connection] bound to the closed connection,
    so a later [get_data_sql] passes the test on [self.connection],
    submits the query and fails in the driver. *)
Lemma get_data_sql_on_closed_connection (query : string)
    (self : Connector) (w : World) (c : nat) :
  connection self = Some c -> c ∉ open_connections w ->
  get_data_sql query_result query self w
  = (Raise (Exception_ "Failed to execute query: connection already closed"),
     self, log (ReadSqlQuery c query) w).
Proof.
  intros Hc Hclosed. unfold get_data_sql, read_sql_query. rewrite Hc.
  by rewrite bool_decide_false.
Qed.

End Driver.

Lemma with_closes_cursor_then_connection_witness :
  let refused := fun _ : Connector => @None string in
  let cursor_refused := fun _ : nat => @None string in
  let query_result := fun _ : string =>
    @Raise DataFrame (DriverError "relation does not exist") in
  let self := __init__ "localhost" "mydatabase" 5434 "user" "secret" in
  let w := mkWorld 0 ∅ ∅ [] in
  let ended := with_ refused cursor_refused
                 (get_data_sql query_result "SELECT * FROM visits") self w in
  ended.1.1 = Raise (Exception_ "Failed to execute query: relation does not exist")
  /\ trace (ended.2)
     = [Connected 0; CursorOpened 0 1; ReadSqlQuery 0 "SELECT * FROM visits";
        CursorClosed 1; ConnectionClosed 0].
Proof.
  intros refused cursor_refused query_result self w ended.
  pose (self1 := set_cursor (Some 1%nat) (set_connection (Some 0%nat) self)).
  pose (w1 := mkWorld 2 {[0%nat]} {[1%nat]} [Connected 0; CursorOpened 0 1]).
  destruct (with_closes_cursor_then_connection refused cursor_refused
              (get_data_sql query_result "SELECT * FROM visits") self self1 w w1)
    as (c & k & Hc & Hk & _ & _ & Hout & _ & _ & Htrace).
  - vm_compute. reflexivity.
  - apply (get_data_sql_keeps_handles query_result _ self1 w1).
  - apply (get_data_sql_keeps_handles query_result _ self1 w1).
  - injection Hc as <-. injection Hk as <-. fold ended in Hout, Htrace.
    split; [by rewrite Hout|by rewrite Htrace].
Defined.

(** C8 as stated fails for a block that rebinds [self.cursor]: the
    cursor opened on entry is then not closed on exit, because [__exit__]
    closes what the attributes are bound to when it runs. *)
Lemma with_rebound_cursor_stays_open :
  let refused := fun _ : Connector => @None string in
  let cursor_refused := fun _ : nat => @None string in
  let body : Method unit := fun self w => (Return tt, set_cursor None self, w) in
  let self := __init__ "localhost" "mydatabase" 5434 "user" "secret" in
  let w := mkWorld 0 ∅ ∅ [] in
  let ended := with_ refused cursor_refused body self w in
  ended.1.1 = Return tt
  /\ trace (ended.2) = [Connected 0; CursorOpened 0 1; ConnectionClosed 0]
  /\ 1%nat ∈ open_cursors (ended.2).
Proof.
  intros refused cursor_refused body self w ended.
  split; [done|]. split; [done|].
  change (1%nat ∈ ({[1%nat]} ∪ ∅ : gset nat)).
  by apply elem_of_union_l, elem_of_singleton.
Qed.

Lemma get_data_sql_requires_connection_witness :
  let query_result := fun _ : string => Return (mkFrame [] []) in
  let self := __init__ "localhost" "mydatabase" 5434 "user" "secret" in
  let w := mkWorld 0 ∅ ∅ [] in
  (get_data_sql query_result "SELECT 1" self w).1.1
  = Raise (Exception_ "Database connection is not established. Use this method within a context manager.")
  /\ trace ((get_data_sql query_result "SELECT 1" self w).2) = [].
Proof.
  intros query_result self w.
  destruct (get_data_sql_requires_connection (fun _ => None) (fun _ => None)
              query_result "SELECT 1" self w) as [Hnone _].
  by rewrite (Hnone eq_refl).
Defined.

(** C10 as stated fails after the block: [__exit__] closes the
    connection and leaves [self.connection] bound to it, so a call
    outside the block passes the test on [self.connection], submits the
    query and raises the exception of a failed query, not the one that
    says the connection is not established. *)
Lemma get_data_sql_after_exit_submits_query :
  let refused := fun _ : Connector => @None string in
  let cursor_refused := fun _ : nat => @None string in
  let query_result := fun _ : string => Return (mkFrame [] []) in
  let body : Method unit := fun self w => (Return tt, self, w) in
  let self := __init__ "localhost" "mydatabase" 5434 "user" "secret" in
  let ended := with_ refused cursor_refused body self (mkWorld 0 ∅ ∅ []) in
  let later := get_data_sql query_result "SELECT 1" (ended.1.2) (ended.2) in
  connection (ended.1.2) = Some 0%nat
  /\ (0%nat ∉ open_connections (ended.2))
  /\ later.1.1 = Raise (Exception_ "Failed to execute query: connection already closed")
  /\ trace (later.2)
     = [Connected 0; CursorOpened 0 1; CursorClosed 1; ConnectionClosed 0;
        ReadSqlQuery 0 "SELECT 1"].
Proof.
  intros refused cursor_refused query_result body self ended later.
  assert (Hclosed : 0%nat ∉ open_connections (ended.2)).
  { change (0%nat ∉ (({[0%nat]} ∪ ∅) ∖ {[0%nat]} : gset nat)).
    intros [_ Hn]%elem_of_difference. by apply Hn, elem_of_singleton. }
  split; [done|]. split; [done|].
  unfold later.
  rewrite (get_data_sql_on_closed_connection query_result "SELECT 1"
             (ended.1.2) (ended.2) 0 eq_refl Hclosed).
  by split.
Qed.

End Session.

(** * Part III: further properties of the code *)

Module MoreChecks.
Import Pandas DataQualityLibrary Masks Checks Completeness.

(** X1.  On a table with at least one column, when two rows share a key
    and [max_display] is not negative, the message of [check_duplicates]
    shows the first
    [min(N, max_display)] of the [N] flagged rows, in frame order, and
    ends with the note that [N - max_display] more rows are not shown
    exactly when [N > max_display]. *)
Theorem check_duplicates_sample_and_note
    (to_string : DataFrame -> string) (df : DataFrame)
    (column_names : option (list string)) (max_display : Z)
    (ks : list (list scalar)) :
  columns df <> [] ->
  keys_of (selection column_names) df = Return ks ->
  has_duplicate_pair ks ->
  0 <= max_display ->
  let duplicates := loc_mask (mark_all_duplicates ks) df in
  let n := len duplicates in
  rows (head max_display duplicates) = take (Z.to_nat max_display) (rows duplicates)
  /\ len (head max_display duplicates) = Z.min n max_display
  /\ check_duplicates to_string df column_names max_display
     = Raise (AssertionError
         ("Found " ++ str_int n ++ " duplicate rows in the dataset." ++ nl ++ nl
            ++ "First " ++ str_int (Z.min n max_display) ++ " duplicate rows:" ++ nl
            ++ to_string (head max_display duplicates) ++ nl
            ++ (if n >? max_display
                then nl ++ "... and " ++ str_int (n - max_display)
                       ++ " more duplicate rows not shown."
                else ""))).
Proof.
  intros Hcols Hks Hpair Hmd duplicates n.
  assert (Hhead : rows (head max_display duplicates)
                  = take (Z.to_nat max_display) (rows duplicates)).
  { unfold head, slice_to. cbn [rows].
    by destruct (Z.leb_spec 0 max_display); [|lia]. }
  split; [done|]. split.
  { unfold len at 1. rewrite Hhead, length_take. unfold n, len. lia. }
  rewrite (check_duplicates_unfold _ _ _ _ _
             (duplicate_pair_not_empty _ _ Hcols (keys_of_length _ _ _ Hks) Hpair)
             Hks).
  cbv zeta.
  fold duplicates. fold n.
  apply (flagged_rows_pos df ks (keys_of_length _ _ _ Hks)) in Hpair.
  assert (0 < n) as Hn by (unfold n, len, duplicates, loc_mask; cbn [rows]; lia).
  destruct (Z.gtb_spec n 0); [|lia].
  do 2 f_equal. rewrite !append_assoc. do 9 f_equal.
  destruct (Z.gtb_spec n max_display) as [Hgt|Hle].
  - destruct (Z.gtb_spec (n - max_display) 0); [done|lia].
  - done.
Qed.

Lemma occurrences_perm k ks ks' : ks ≡ₚ ks' -> occurrences k ks = occurrences k ks'.
Proof. intros Hp. unfold occurrences. by rewrite Hp. Qed.

Lemma filter_bool_decide {A} (P : A -> Prop) `{forall x, Decision (P x)} (l : list A) :
  length (filter (fun b => b = true) ((fun x => bool_decide (P x)) <$> l))
  = length (filter P l).
Proof.
  induction l as [|x l IH]; [done|].
  rewrite fmap_cons. destruct (decide (P x)).
  - rewrite filter_cons_True by (by apply bool_decide_eq_true).
    rewrite (filter_cons_True P) by done. simpl. by rewrite IH.
  - rewrite filter_cons_False by (by rewrite bool_decide_eq_true).
    by rewrite (filter_cons_False P) by done.
Qed.

(** The number of flagged rows, from the keys alone *)
Lemma flagged_count {A} (ks : list (list scalar)) (l : list A) :
  length l = length ks ->
  length (select (mark_all_duplicates ks) l)
  = length (filter (fun k => (2 <= occurrences k ks)%nat) ks).
Proof.
  intros Hlen.
  rewrite select_length_filter by (unfold mark_all_duplicates; by rewrite length_fmap).
  apply (filter_bool_decide (fun k => (2 <= occurrences k ks)%nat)).
Qed.

Lemma flagged_count_perm ks ks' :
  ks ≡ₚ ks' ->
  length (filter (fun k => (2 <= occurrences k ks)%nat) ks)
  = length (filter (fun k => (2 <= occurrences k ks')%nat) ks').
Proof.
  intros Hp.
  transitivity (length (filter (fun k => (2 <= occurrences k ks')%nat) ks)).
  - f_equal. apply list_filter_iff. intros k.
    by rewrite (occurrences_perm k ks ks' Hp).
  - by rewrite Hp.
Qed.

Lemma keys_of_perm subset df df' :
  columns df = columns df' -> rows df ≡ₚ rows df' ->
  match keys_of subset df, keys_of subset df' with
  | Return ks, Return ks' => ks ≡ₚ ks'
  | Raise e, Raise e' => e = e'
  | _, _ => False
  end.
Proof.
  intros Hc Hp. unfold keys_of, positions. destruct subset as [cs|]; simpl.
  - rewrite Hc. destruct (filter _ cs); [|done]. simpl. by apply fmap_Permutation.
  - by apply fmap_Permutation.
Qed.

Lemma keys_of_raises subset df e :
  keys_of subset df = Raise e -> exists c, e = KeyError c.
Proof.
  unfold keys_of. destruct subset as [cs|]; [|done].
  destruct (filter _ cs) as [|c ?]; [done|]. intros [= <-]. by exists c.
Qed.

Lemma check_duplicates_count to_string df column_names max_display ks :
  empty df = false ->
  keys_of (selection column_names) df = Return ks ->
  let n := length (filter (fun k => (2 <= occurrences k ks)%nat) ks) in
  (n = 0%nat /\ check_duplicates to_string df column_names max_display = Return tt)
  \/ (n <> 0%nat
      /\ exists rest,
           check_duplicates to_string df column_names max_display
           = Raise (AssertionError
                      ("Found " ++ str_int (Z.of_nat n)
                         ++ " duplicate rows in the dataset." ++ rest))).
Proof.
  intros He Hks n. rewrite (check_duplicates_unfold _ _ _ _ _ He Hks). cbv zeta.
  unfold len, loc_mask. cbn [rows].
  rewrite (flagged_count ks (rows df)) by (symmetry; by eapply keys_of_length).
  fold n. destruct (Z.gtb_spec (Z.of_nat n) 0).
  - right. split; [lia|]. by eexists.
  - left. split; [lia|done].
Qed.

(** X2.  [check_duplicates] does not depend on the order of the rows:
    on two tables with the same columns and the same rows in another
    order it returns on both or on neither, raises the same [KeyError] on
    both or on neither, and when it raises an [AssertionError] both
    messages start with the same number of duplicate rows. *)
Theorem check_duplicates_row_order
    (to_string : DataFrame -> string) (df df' : DataFrame)
    (column_names : option (list string)) (max_display : Z) :
  columns df = columns df' -> rows df ≡ₚ rows df' ->
  let r := check_duplicates to_string df column_names max_display in
  let r' := check_duplicates to_string df' column_names max_display in
  (r = Return tt <-> r' = Return tt)
  /\ (forall c, r = Raise (KeyError c) <-> r' = Raise (KeyError c))
  /\ (raises_assertion r ->
      exists n rest rest',
        r = Raise (AssertionError
                     ("Found " ++ str_int n ++ " duplicate rows in the dataset." ++ rest))
        /\ r' = Raise (AssertionError
                         ("Found " ++ str_int n ++ " duplicate rows in the dataset."
                            ++ rest'))).
Proof.
  intros Hc Hp r r'.
  assert (empty df' = empty df) as He'
      by (unfold empty, len; by rewrite Hc, (Permutation_length Hp)).
  destruct (empty df) eqn:He.
  { assert (bool_decide (rows df' = []) = bool_decide (rows df = [])) as Hnil.
    { apply bool_decide_ext. apply Permutation_length in Hp.
      split; intros E; rewrite E in Hp; simpl in Hp.
      - by destruct (rows df).
      - by destruct (rows df'). }
    unfold r, r'. rewrite !check_duplicates_empty, Hnil by done.
    destruct (bool_decide (rows df = [])); by repeat split. }
  pose proof (keys_of_perm (selection column_names) df df' Hc Hp) as Hk.
  destruct (keys_of (selection column_names) df) as [ks|e] eqn:E,
           (keys_of (selection column_names) df') as [ks'|e'] eqn:E'; try done.
  - destruct (check_duplicates_count to_string df column_names max_display ks He E)
      as [[Hn Hr]|[Hn [rest Hr]]];
    destruct (check_duplicates_count to_string df' column_names max_display ks' He' E')
      as [[Hn' Hr']|[Hn' [rest' Hr']]];
    rewrite <- (flagged_count_perm ks ks' Hk) in *; try done.
    + unfold r, r'. rewrite Hr, Hr'. by repeat split.
    + unfold r, r'. rewrite Hr, Hr'. repeat split; try done.
      intros _. by eexists _, rest, rest'.
  - subst e'.
    assert (r = r') as <-.
    { unfold r, r', check_duplicates, duplicated, selection in *. rewrite He, He'.
      destruct (truthy column_names); by rewrite E, E'. }
    repeat split; try done.
    destruct (keys_of_raises _ _ _ E) as [c ->].
    unfold r, check_duplicates, duplicated, selection in *. rewrite He.
    destruct (truthy column_names); by rewrite E.
Qed.

Lemma collect_null_columns_absent df pre c post acc :
  Forall (fun c' => label_count c' df = 1%nat) pre -> c ∉ columns df ->
  collect_null_columns df (pre ++ c :: post)%list acc
  = Raise (ValueError ("Column '" ++ c ++ "' does not exist in the DataFrame.")).
Proof.
  intros Hpre Hc. revert acc. induction Hpre as [|c' pre Hc' Hpre IH]; intros acc.
  - simpl. unfold has_column. by rewrite bool_decide_false.
  - simpl. unfold has_column at 1. rewrite bool_decide_true; simpl.
    + rewrite (getitem_unique _ _ Hc'). simpl. apply IH.
    + destruct (decide (c' ∈ columns df)) as [|Hno]; [done|].
      apply label_count_absent in Hno. congruence.
Qed.

(** X3.  [check_not_null_values] stops at the first named column that
    is not in the table, when each column named before it is the label
    of exactly one column: it raises the [ValueError] that names the
    absent column, whatever nulls the columns named before it hold and
    whatever follows it in the list. *)
Theorem check_not_null_values_first_absent_column
    (df : DataFrame) (present : list string) (c : string) (rest : list string) :
  Forall (fun c' => label_count c' df = 1%nat) present -> c ∉ columns df ->
  check_not_null_values df (present ++ c :: rest)%list
  = Raise (ValueError ("Column '" ++ c ++ "' does not exist in the DataFrame.")).
Proof.
  intros Hp Hc. unfold check_not_null_values.
  by rewrite collect_null_columns_absent.
Qed.

(** X4.  [check_dataset_is_not_empty] has one failure message: its
    second assertion never fails, because a table without columns is
    already [empty]; such a table is reported as having no row. *)
Theorem check_dataset_is_not_empty_one_message (df : DataFrame) :
  check_dataset_is_not_empty df = Return tt
  \/ check_dataset_is_not_empty df
     = Raise (AssertionError "Dataset is empty. Expected at least one row.").
Proof.
  unfold check_dataset_is_not_empty, empty, len.
  destruct (rows df), (columns df); simpl; auto.
Qed.

Lemma normalized_columns df sorted :
  normalized df = Return sorted -> columns sorted = columns df.
Proof. by intros [_ ->]%normalized_returns. Qed.

(** A check that returns has sorted both tables and found them equal. *)
Lemma check_data_completeness_returns to_string merge A B max_display :
  check_data_completeness to_string merge A B max_display = Return tt ->
  exists sA sB,
    normalized A = Return sA /\ normalized B = Return sB
    /\ assert_frame_equal sA sB rtol = Return tt.
Proof.
  unfold check_data_completeness.
  fold (normalized A). fold (normalized B).
  destruct (normalized A) as [sA|e]; [|done].
  destruct (normalized B) as [sB|e]; [|done].
  unfold mbind, result_bind, Py.bind.
  destruct (assert_frame_equal sA sB rtol) as [[]|e] eqn:E.
  - intros _. by exists sA, sB.
  - by destruct (is_assertion_or_value_error e).
Qed.

(** X5.  When [check_data_completeness] returns, the two tables have
    the same columns in the same order, [check_count] returns on them,
    and [check_dataset_is_not_empty] has the same outcome on both. *)
Theorem check_data_completeness_implies_count_and_columns
    (to_string : DataFrame -> string)
    (merge_outer_indicator : DataFrame -> DataFrame -> result DataFrame)
    (source_df target_df : DataFrame) (max_display : Z) :
  check_data_completeness to_string merge_outer_indicator
    source_df target_df max_display = Return tt ->
  columns source_df = columns target_df
  /\ check_count source_df target_df = Return tt
  /\ check_dataset_is_not_empty source_df = check_dataset_is_not_empty target_df.
Proof.
  intros (sA & sB & HA & HB & Heq)%check_data_completeness_returns.
  apply assert_frame_equal_returns in Heq as (Hc & Hlen & _).
  rewrite (normalized_columns _ _ HA), (normalized_columns _ _ HB) in Hc.
  assert (len source_df = len target_df) as Hl.
  { rewrite <- (normalized_len _ _ HA), <- (normalized_len _ _ HB).
    unfold len. by rewrite Hlen. }
  split; [done|]. split.
  - unfold check_count. rewrite Hl. by rewrite Z.eqb_refl.
  - unfold check_dataset_is_not_empty, empty. by rewrite Hl, Hc.
Qed.

Lemma Qccompare_opp x : (- x ?= 0)%Qc = CompOpp (x ?= 0)%Qc.
Proof.
  unfold Qccompare, Qcopp, Q2Qc. cbn [this].
  transitivity (- this x ?= 0)%Q.
  - apply Qcompare_comp; [apply Qred_correct|reflexivity].
  - destruct (this x) as [n d]. unfold Qcompare, Qopp. simpl.
    rewrite !Z.mul_1_r. by destruct n.
Qed.

(** Rounding commutes with the change of sign. *)
Lemma round_opp x : Float64.round (- x) = (- Float64.round x)%Qc.
Proof.
  unfold Float64.round. rewrite Qccompare_opp.
  destruct (x ?= 0)%Qc eqn:E; cbn [CompOpp].
  - by apply Qc_is_canon.
  - by rewrite Qcopp_involutive.
  - by rewrite Qcopp_involutive.
Qed.

Lemma isclose_sym rtol atol a b :
  Float64.isclose rtol atol a b = Float64.isclose rtol atol b a.
Proof.
  unfold Float64.isclose.
  destruct (Qc_eq_dec (Float64.round a) (Float64.round b)) as [E|E],
           (Qc_eq_dec (Float64.round b) (Float64.round a)) as [E'|E'];
    try done; try congruence.
  assert (Qcabs (Float64.round (Float64.round a - Float64.round b))
          = Qcabs (Float64.round (Float64.round b - Float64.round a))) as ->.
  { rewrite <- (Qcabs_opp (Float64.round (Float64.round b - Float64.round a))).
    rewrite <- round_opp. f_equal. f_equal. ring. }
  by rewrite (orb_comm (Qle_bool _ (Qcabs (Float64.round (rtol * Float64.round a))))).
Qed.

Lemma almost_equal_sym rtol atol a b :
  almost_equal rtol atol a b = almost_equal rtol atol b a.
Proof.
  unfold almost_equal.
  destruct a as [|x|x|x], b as [|y|y|y]; simpl; try done.
  all: repeat case_bool_decide; try done; try congruence.
  apply isclose_sym.
Qed.

Lemma column_almost_equal_sym rtol atol l1 l2 j :
  column_almost_equal rtol atol l1 l2 j = column_almost_equal rtol atol l2 l1 j.
Proof.
  unfold column_almost_equal. revert l2.
  induction l1 as [|r1 l1 IH]; intros [|r2 l2]; simpl; try done.
  by rewrite IH, almost_equal_sym.
Qed.

Lemma assert_frame_equal_sym left right rtol :
  assert_frame_equal left right rtol = Return tt ->
  assert_frame_equal right left rtol = Return tt.
Proof.
  unfold assert_frame_equal, assert_.
  repeat match goal with
         | |- (if bool_decide ?P then _ else _) ≫= _ = _ -> _ =>
             destruct (bool_decide_reflect P); simpl; [|done]
         end.
  destruct (forallb _ _) eqn:E; [intros _|done].
  rewrite !bool_decide_true by (intuition congruence).
  assert (forallb (column_almost_equal rtol default_atol (rows right) (rows left))
                  (seq 0 (length (columns right))) = true) as ->; [|done].
  replace (columns right) with (columns left) by done.
  rewrite <- E. clear E. induction (seq 0 _) as [|j js IH]; [done|].
  simpl. by rewrite IH, column_almost_equal_sym.
Qed.

Lemma check_data_completeness_raises_assertion to_string merge A B max_display :
  raises_assertion (check_data_completeness to_string merge A B max_display)
  <-> exists sA sB e,
        normalized A = Return sA /\ normalized B = Return sB
        /\ assert_frame_equal sA sB rtol = Raise e.
Proof.
  unfold check_data_completeness.
  fold (normalized A). fold (normalized B).
  destruct (sortable A) eqn:HsA.
  2:{ destruct (normalized_unsortable _ HsA) as [msg [-> | ->]]; simpl.
      all: split; [done|]; by intros (? & ? & ? & ? & _). }
  rewrite (normalized_sortable _ HsA).
  destruct (sortable B) eqn:HsB.
  2:{ destruct (normalized_unsortable _ HsB) as [msg [-> | ->]]; simpl.
      all: split; [done|]; by intros (? & ? & ? & ? & ? & _). }
  rewrite (normalized_sortable _ HsB).
  unfold mbind, result_bind, Py.bind.
  destruct (assert_frame_equal _ _ rtol) as [[]|e] eqn:E.
  - split; [done|]. intros (sA & sB & e & [= <-] & [= <-] & He). congruence.
  - rewrite (is_assertion_error_or_value _ (assert_frame_equal_raises _ _ _ _ E)).
    split; [|done]. intros _. by eexists _, _, e.
Qed.

(** X6.  The verdict of [check_data_completeness] does not change when
    source and target are exchanged: it returns on both orders or on
    neither, and raises an [AssertionError] on both or on neither. *)
Theorem check_data_completeness_symmetric
    (to_string : DataFrame -> string)
    (merge_outer_indicator : DataFrame -> DataFrame -> result DataFrame)
    (source_df target_df : DataFrame) (max_display : Z) :
  (check_data_completeness to_string merge_outer_indicator
     source_df target_df max_display = Return tt
   <-> check_data_completeness to_string merge_outer_indicator
         target_df source_df max_display = Return tt)
  /\ (raises_assertion (check_data_completeness to_string merge_outer_indicator
                          source_df target_df max_display)
      <-> raises_assertion (check_data_completeness to_string merge_outer_indicator
                              target_df source_df max_display)).
Proof.
  assert (Hret : forall A B,
    check_data_completeness to_string merge_outer_indicator A B max_display = Return tt ->
    check_data_completeness to_string merge_outer_indicator B A max_display = Return tt).
  { intros A B (sA & sB & HA & HB & Heq)%check_data_completeness_returns.
    unfold check_data_completeness. fold (normalized A). fold (normalized B).
    rewrite HA, HB. unfold mbind, result_bind, Py.bind.
    by rewrite (assert_frame_equal_sym _ _ _ Heq). }
  assert (Hraise : forall A B,
    raises_assertion (check_data_completeness to_string merge_outer_indicator
                        A B max_display) ->
    raises_assertion (check_data_completeness to_string merge_outer_indicator
                        B A max_display)).
  { intros A B (sA & sB & e & HA & HB & He)%check_data_completeness_raises_assertion.
    apply check_data_completeness_raises_assertion.
    destruct (assert_frame_equal sB sA rtol) as [[]|e'] eqn:E.
    - apply assert_frame_equal_sym in E. congruence.
    - by exists sB, sA, e'. }
  split; split; auto.
Qed.

Lemma check_data_completeness_returns_iff to_string merge A B max_display :
  check_data_completeness to_string merge A B max_display = Return tt
  <-> exists sA sB,
        normalized A = Return sA /\ normalized B = Return sB
        /\ assert_frame_equal sA sB rtol = Return tt.
Proof.
  split; [apply check_data_completeness_returns|].
  intros (sA & sB & HA & HB & Heq). unfold check_data_completeness.
  fold (normalized A). fold (normalized B). rewrite HA, HB.
  unfold mbind, result_bind, Py.bind. by rewrite Heq.
Qed.

(** X8.  Whether [check_data_completeness] returns or raises an
    [AssertionError] does not depend on [max_display], on the rendering
    of frames or on what the outer join does: these only shape the
    message. *)
Theorem check_data_completeness_verdict_ignores_display
    (to_string to_string' : DataFrame -> string)
    (merge merge' : DataFrame -> DataFrame -> result DataFrame)
    (source_df target_df : DataFrame) (max_display max_display' : Z) :
  (check_data_completeness to_string merge source_df target_df max_display = Return tt
   <-> check_data_completeness to_string' merge' source_df target_df max_display'
       = Return tt)
  /\ (raises_assertion
        (check_data_completeness to_string merge source_df target_df max_display)
      <-> raises_assertion
            (check_data_completeness to_string' merge' source_df target_df
               max_display')).
Proof.
  split.
  - by rewrite !check_data_completeness_returns_iff.
  - by rewrite !check_data_completeness_raises_assertion.
Qed.

(** X7.  Every [AssertionError] of [check_data_completeness] starts with
    the heading, the row counts of the two tables and the absolute value
    of their difference, whether or not the outer join succeeds. *)
Theorem check_data_completeness_message_head
    (to_string : DataFrame -> string)
    (merge_outer_indicator : DataFrame -> DataFrame -> result DataFrame)
    (source_df target_df : DataFrame) (max_display : Z) (msg : string) :
  check_data_completeness to_string merge_outer_indicator
    source_df target_df max_display = Raise (AssertionError msg) ->
  exists rest,
    msg = "Data completeness check failed:" ++ nl ++ nl
            ++ "Row count - Source: " ++ str_int (len source_df)
            ++ ", Target: " ++ str_int (len target_df) ++ nl
            ++ "Difference: " ++ str_int (Z.abs (len source_df - len target_df))
            ++ " rows" ++ nl ++ nl ++ rest.
Proof.
  intros Hmsg.
  assert (raises_assertion (check_data_completeness to_string merge_outer_indicator
                              source_df target_df max_display)) as Hr
      by (by rewrite Hmsg).
  apply check_data_completeness_raises_assertion in Hr
    as (sA & sB & e & HA & HB & He).
  revert Hmsg. unfold check_data_completeness.
  fold (normalized source_df). fold (normalized target_df).
  rewrite HA, HB. unfold mbind, result_bind, Py.bind. rewrite He.
  rewrite (is_assertion_error_or_value _ (assert_frame_equal_raises _ _ _ _ He)).
  intros [= <-].
  exists (difference_lines to_string merge_outer_indicator sA sB max_display).
  unfold count_lines, abs_diff.
  rewrite (normalized_len _ _ HA), (normalized_len _ _ HB).
  by rewrite !append_assoc.
Qed.

Lemma check_duplicates_sample_and_note_witness :
  let df := mkFrame ["facility_name"]
              [mkRow 0 [Str "Clinic"]; mkRow 1 [Str "Clinic"]; mkRow 2 [Str "Clinic"]] in
  check_duplicates (fun _ => "<rows>") df None 2
  = Raise (AssertionError
      ("Found 3 duplicate rows in the dataset." ++ nl ++ nl
         ++ "First 2 duplicate rows:" ++ nl ++ "<rows>" ++ nl
         ++ nl ++ "... and 1 more duplicate rows not shown.")).
Proof.
  intros df.
  destruct (check_duplicates_sample_and_note (fun _ => "<rows>") df None 2
              [[Str "Clinic"]; [Str "Clinic"]; [Str "Clinic"]])
    as (_ & _ & Hmsg).
  - done.
  - reflexivity.
  - by exists 0%nat, 1%nat, [Str "Clinic"].
  - lia.
  - exact Hmsg.
Defined.

Lemma check_duplicates_row_order_witness :
  let df := mkFrame ["facility_name"]
              [mkRow 0 [Str "Clinic"]; mkRow 1 [Str "Annex"]; mkRow 2 [Str "Clinic"]] in
  let df' := mkFrame ["facility_name"]
               [mkRow 1 [Str "Annex"]; mkRow 0 [Str "Clinic"]; mkRow 2 [Str "Clinic"]] in
  check_duplicates (fun _ => "") df (Some ["facility_name"]) 10 = Return tt
  <-> check_duplicates (fun _ => "") df' (Some ["facility_name"]) 10 = Return tt.
Proof.
  intros df df'.
  apply (check_duplicates_row_order (fun _ => "") df df' (Some ["facility_name"]) 10
           eq_refl).
  apply Permutation_swap.
Defined.

Lemma check_not_null_values_first_absent_column_witness :
  let df := mkFrame ["facility_name"] [mkRow 0 [Null]] in
  check_not_null_values df ["facility_name"; "visit_date"; "min_time_spent"]
  = Raise (ValueError "Column 'visit_date' does not exist in the DataFrame.").
Proof.
  intros df.
  apply (check_not_null_values_first_absent_column df ["facility_name"]
           "visit_date" ["min_time_spent"]).
  - repeat constructor.
  - apply (bool_decide_unpack _). by vm_compute.
Defined.

Lemma check_data_completeness_implies_count_and_columns_witness :
  let to_string := fun _ : DataFrame => "" in
  let merge := fun _ _ : DataFrame => @Raise DataFrame (ValueError "") in
  let A := mkFrame ["facility_name"] [mkRow 0 [Str "Clinic"]; mkRow 1 [Str "Annex"]] in
  let B := mkFrame ["facility_name"] [mkRow 5 [Str "Annex"]; mkRow 3 [Str "Clinic"]] in
  check_count A B = Return tt.
Proof.
  intros ts mg A B.
  apply (check_data_completeness_implies_count_and_columns ts mg A B 10).
  by vm_compute.
Defined.

Lemma check_data_completeness_message_head_witness :
  let to_string := fun _ : DataFrame => "" in
  let merge := fun _ _ : DataFrame => Return (mkFrame ["_merge"] []) in
  let A := mkFrame ["facility_name"] [mkRow 0 [Str "Clinic"]; mkRow 1 [Str "Annex"]] in
  let B := mkFrame ["facility_name"] [mkRow 0 [Str "Clinic"]] in
  exists rest,
    check_data_completeness to_string merge A B 10
    = Raise (AssertionError
        ("Data completeness check failed:" ++ nl ++ nl
           ++ "Row count - Source: 2, Target: 1" ++ nl
           ++ "Difference: 1 rows" ++ nl ++ nl ++ rest)).
Proof.
  intros ts mg A B.
  assert (exists msg, check_data_completeness ts mg A B 10 = Raise (AssertionError msg))
    as [msg Hmsg] by (eexists; by vm_compute).
  destruct (check_data_completeness_message_head ts mg A B 10 msg Hmsg)
    as [rest Hrest].
  exists rest. rewrite Hmsg, Hrest. reflexivity.
Defined.

End MoreChecks.

Module MoreSession.
Import Pandas Postgres.

Section Driver.

Variable connect_refused : Connector -> option string.
Variable cursor_refused : nat -> option string.
Variable query_result : string -> result DataFrame.

(** X9.  When the server refuses the connection, the [with] statement
    raises [Exception] with the driver's message after
    ["Failed to connect to database: "]; the body and [__exit__] do not
    run, and the connector and the world are as before. *)
Theorem with_connect_refused {A} (body : Method A)
    (self : Connector) (w : World) (msg : string) :
  connect_refused self = Some msg ->
  with_ connect_refused cursor_refused body self w
  = (Raise (Exception_ ("Failed to connect to database: " ++ msg)), self, w).
Proof.
  intros H. unfold with_, __enter__, psycopg2_connect. by rewrite H.
Qed.

(** X10.  When the connection is made but the cursor cannot be opened,
    [__enter__] raises and the [with] statement ends without [__exit__]:
    the new connection stays open and bound to [self.connection], and
    the trace holds its opening and no closing. *)
Theorem with_cursor_refused_leaves_connection_open {A} (body : Method A)
    (self : Connector) (w : World) (msg : string) :
  connect_refused self = None ->
  cursor_refused (next_handle w) = Some msg ->
  let c := next_handle w in
  let ended := with_ connect_refused cursor_refused body self w in
  ended.1.1 = Raise (Exception_ ("Failed to connect to database: " ++ msg))
  /\ connection (ended.1.2) = Some c
  /\ cursor (ended.1.2) = cursor self
  /\ c ∈ open_connections (ended.2)
  /\ trace (ended.2) = (trace w ++ [Connected c])%list.
Proof.
  intros Hc Hk c ended. unfold ended, c, with_, __enter__, psycopg2_connect,
    connection_cursor. rewrite Hc, Hk. simpl.
  repeat split. apply elem_of_union_l. by apply elem_of_singleton.
Qed.

(** X11.  On an open connection [get_data_sql] submits the query once,
    returns its frame, or raises [Exception] with the message of
    whatever the query raised after ["Failed to execute query: "]; it
    opens and closes no handle and leaves the connector as it is. *)
Theorem get_data_sql_on_open_connection (query : string)
    (self : Connector) (w : World) (c : nat) :
  connection self = Some c -> c ∈ open_connections w ->
  get_data_sql query_result query self w
  = (match query_result query with
     | Return df => Return df
     | Raise e => Raise (Exception_ ("Failed to execute query: " ++ str_exn e))
     end,
     self,
     mkWorld (next_handle w) (open_connections w) (open_cursors w)
             (trace w ++ [ReadSqlQuery c query])).
Proof.
  intros Hc Hopen. unfold get_data_sql, read_sql_query, log. rewrite Hc.
  rewrite bool_decide_true by done. by destruct (query_result query).
Qed.

(** X12.  [__exit__] closes the cursor and the connection bound to the
    connector and nothing else: any other handle is open after it
    exactly when it was open before; the connector keeps its
    attributes and the call returns. *)
Theorem exit_closes_only_its_handles (self : Connector) (w : World) (h : nat) :
  let w' := (__exit__ self w).2 in
  (h ∈ open_connections w' <-> h ∈ open_connections w /\ connection self <> Some h)
  /\ (h ∈ open_cursors w' <-> h ∈ open_cursors w /\ cursor self <> Some h)
  /\ (__exit__ self w).1 = (Return tt, self).
Proof.
  unfold __exit__, cursor_close, connection_close.
  destruct (cursor self) as [k|], (connection self) as [c|]; simpl.
  all: rewrite ?elem_of_difference, ?elem_of_singleton.
  all: split; [|split; [|done]].
  all: split; [intros H|intros [H1 H2]]; try done;
       try (destruct H as [H1 H2]); try split; try done; congruence.
Qed.

(** Every open handle was handed out by the driver. *)
Definition handles_below (w : World) : Prop :=
  forall h, h ∈ open_connections w \/ h ∈ open_cursors w -> (h < next_handle w)%nat.

(** A body that opens and closes no handle *)
Definition keeps_open {A} (body : Method A) : Prop :=
  forall self w,
    open_connections ((body self w).2) = open_connections w
    /\ open_cursors ((body self w).2) = open_cursors w.

Lemma get_data_sql_keeps_open query : keeps_open (get_data_sql query_result query).
Proof.
  intros self w. unfold get_data_sql, read_sql_query.
  destruct (connection self) as [c|]; [|done].
  case_bool_decide; [destruct (query_result query)|]; done.
Qed.

(** X13.  In a world where every open handle was handed out by the
    driver, a [with] statement that entered, around a body that keeps
    the connector's handles and opens and closes none, leaves exactly
    the connections and cursors open that were open before it. *)
Theorem with_restores_open_handles {A} (body : Method A)
    (self self1 : Connector) (w w1 : World) :
  handles_below w -> keeps_handles body -> keeps_open body ->
  __enter__ connect_refused cursor_refused self w = (Return tt, self1, w1) ->
  let ended := with_ connect_refused cursor_refused body self w in
  open_connections (ended.2) = open_connections w
  /\ open_cursors (ended.2) = open_cursors w.
Proof.
  intros Hbelow Hkeeps Hopen Henter ended. unfold ended, with_. rewrite Henter.
  revert Henter. unfold __enter__, psycopg2_connect, connection_cursor.
  destruct (connect_refused self); [done|].
  destruct (cursor_refused (next_handle w)); [done|].
  intros [= <- <-].
  match goal with |- context [body ?s ?x] =>
    destruct (Hkeeps s x) as [Hc Hk]; destruct (Hopen s x) as [Hoc Hok];
    destruct (body s x) as [[r self2] w2] end.
  simpl in *. unfold __exit__. rewrite Hc, Hk. simpl. rewrite Hoc, Hok.
  assert (next_handle w ∉ open_connections w) as Hfc.
  { intros Hin. specialize (Hbelow _ (or_introl Hin)). lia. }
  assert (S (next_handle w) ∉ open_cursors w) as Hfk.
  { intros Hin. specialize (Hbelow _ (or_intror Hin)). lia. }
  split; apply set_eq; intros h;
    rewrite elem_of_difference, elem_of_union, elem_of_singleton;
    split; [intros [[?|?] ?]|intros ?; split; [by right|congruence]
           |intros [[?|?] ?]|intros ?; split; [by right|congruence]];
    done.
Qed.

End Driver.

Lemma with_connect_refused_witness :
  let refused := fun _ : Connector => Some "connection refused" in
  let cursor_refused := fun _ : nat => @None string in
  let query_result := fun _ : string => Return (mkFrame [] []) in
  let self := __init__ "localhost" "mydatabase" 5434 "user" "secret" in
  let w := mkWorld 0 ∅ ∅ [] in
  with_ refused cursor_refused (get_data_sql query_result "SELECT 1") self w
  = (Raise (Exception_ "Failed to connect to database: connection refused"), self, w).
Proof.
  intros refused cursor_refused query_result self w.
  by apply (with_connect_refused refused cursor_refused).
Defined.

Lemma with_cursor_refused_leaves_connection_open_witness :
  let refused := fun _ : Connector => @None string in
  let cursor_refused := fun _ : nat => Some "out of memory" in
  let query_result := fun _ : string => Return (mkFrame [] []) in
  let self := __init__ "localhost" "mydatabase" 5434 "user" "secret" in
  let w := mkWorld 0 ∅ ∅ [] in
  let ended := with_ refused cursor_refused
                 (get_data_sql query_result "SELECT 1") self w in
  (0%nat ∈ open_connections (ended.2)) /\ trace (ended.2) = [Connected 0].
Proof.
  intros refused cursor_refused query_result self w ended.
  destruct (with_cursor_refused_leaves_connection_open refused cursor_refused
              (get_data_sql query_result "SELECT 1") self w "out of memory"
              eq_refl eq_refl) as (_ & _ & _ & Hopen & Htrace).
  by split.
Defined.

Lemma get_data_sql_on_open_connection_witness :
  let query_result := fun _ : string =>
    @Raise DataFrame (DriverError "syntax error") in
  let self := mkConnector "localhost" "mydatabase" 5434 "user" "secret"
                (Some 0%nat) (Some 1%nat) in
  let w := mkWorld 2 {[0%nat]} {[1%nat]} [Connected 0; CursorOpened 0 1] in
  (get_data_sql query_result "SELEC 1" self w).1.1
  = Raise (Exception_ "Failed to execute query: syntax error").
Proof.
  intros query_result self w.
  assert (Hopen : 0%nat ∈ open_connections w).
  { change (0%nat ∈ ({[0%nat]} : gset nat)). by apply elem_of_singleton. }
  rewrite (get_data_sql_on_open_connection query_result "SELEC 1" self w 0
             eq_refl Hopen).
  reflexivity.
Defined.

Lemma with_restores_open_handles_witness :
  let refused := fun _ : Connector => @None string in
  let cursor_refused := fun _ : nat => @None string in
  let query_result := fun _ : string => Return (mkFrame [] []) in
  let self := __init__ "localhost" "mydatabase" 5434 "user" "secret" in
  let w := mkWorld 0 ∅ ∅ [] in
  let ended := with_ refused cursor_refused
                 (get_data_sql query_result "SELECT 1") self w in
  open_connections (ended.2) = ∅ /\ open_cursors (ended.2) = ∅.
Proof.
  intros refused cursor_refused query_result self w ended.
  apply (with_restores_open_handles refused cursor_refused
           (get_data_sql query_result "SELECT 1") self
           (set_cursor (Some 1%nat) (set_connection (Some 0%nat) self)) w
           (mkWorld 2 ({[0%nat]} ∪ ∅) ({[1%nat]} ∪ ∅) [Connected 0; CursorOpened 0 1])).
  - intros h [Hh|Hh]; by apply elem_of_empty in Hh.
  - apply Session.get_data_sql_keeps_handles.
  - apply get_data_sql_keeps_open.
  - reflexivity.
Defined.

End MoreSession.

Module ReaderFacts.
Import Pandas ParquetReader.

Lemma list_ascii_of_string_app (s1 s2 : string) :
  list_ascii_of_string (s1 ++ s2)
  = (list_ascii_of_string s1 ++ list_ascii_of_string s2)%list.
Proof.
  induction s1 as [|a s1 IH]; [done|].
  change (a :: list_ascii_of_string (s1 ++ s2)
          = a :: (list_ascii_of_string s1 ++ list_ascii_of_string s2)%list).
  by rewrite IH.
Qed.

Lemma endswith_app (s1 s2 suffix : string) :
  endswith s2 suffix = true -> endswith (s1 ++ s2) suffix = true.
Proof.
  unfold endswith. rewrite !bool_decide_eq_true, list_ascii_of_string_app.
  apply suffix_app_r.
Qed.

Lemma endswith_path_join (root file suffix : string) :
  endswith file suffix = true -> endswith (path_join root file) suffix = true.
Proof.
  intros H. unfold path_join.
  destruct (startswith file "/"); [done|].
  destruct (_ || _); repeat apply endswith_app; done.
Qed.

Section FileSystem.

Variable path_exists : string -> bool.
Variable isfile : string -> bool.
Variable isdir : string -> bool.
Variable read_parquet : string -> result DataFrame.
Variable walk : string -> list (string * list string * list string).

(** X14.  [ParquetReader.process] returns a frame only when the path
    exists, and then the frame is the one read and is not empty; it
    raises [FileNotFoundError] exactly when the path does not exist;
    every other failure, the [ValueError]s for an invalid path and for
    empty data included, leaves it as a plain [Exception] whose message
    starts with ["Failed to read Parquet file(s) from "] and the path. *)
Theorem process_outcomes (path : string) (include_subfolders : bool) :
  match process path_exists isfile isdir read_parquet path include_subfolders with
  | Returned df =>
      path_exists path = true /\ read_parquet path = Return df /\ empty df = false
  | Raised (FileNotFoundError msg) =>
      path_exists path = false /\ msg = "Path does not exist: " ++ path
  | Raised (Exn (Exception_ msg)) =>
      path_exists path = true
      /\ exists detail,
           msg = "Failed to read Parquet file(s) from " ++ path ++ ": " ++ detail
           /\ ((exists e, read_parquet path = Raise e /\ detail = str_exn e)
               \/ (exists df, read_parquet path = Return df /\ empty df = true
                     /\ detail = "No data found in Parquet files at path: " ++ path)
               \/ (include_subfolders = false /\ isfile path = false
                     /\ isdir path = false /\ detail = "Invalid path: " ++ path))
  | Raised _ => False
  end.
Proof.
  unfold process. destruct (path_exists path); simpl; [|done].
  destruct include_subfolders, (isfile path) eqn:Ef, (isdir path) eqn:Ed; simpl.
  all: try (destruct (read_parquet path) as [df|e] eqn:Er; simpl;
            [destruct (empty df) eqn:Ee; simpl|]).
  all: try done.
  all: split; [done|]; eexists; split; [done|].
  all: try (by right; left; exists df).
  all: try (by left; exists e).
  all: by right; right.
Qed.

(** X15.  For a path that is a file or a directory,
    [include_subfolders] makes no difference to [process]. *)
Theorem process_include_subfolders_irrelevant (path : string) :
  isfile path = true \/ isdir path = true ->
  process path_exists isfile isdir read_parquet path true
  = process path_exists isfile isdir read_parquet path false.
Proof.
  intros H. unfold process. destruct (isfile path); [done|].
  destruct H as [H|H]; [done|]. by rewrite H.
Qed.

Lemma collect_files_spec root files acc :
  collect_files root files acc
  = (acc ++ (path_join root <$> filter (fun f => endswith f ".parquet" = true) files))%list.
Proof.
  unfold collect_files. revert acc.
  induction files as [|f files IH]; intros acc; simpl.
  - by rewrite app_nil_r.
  - rewrite IH. destruct (endswith f ".parquet") eqn:E.
    + rewrite filter_cons_True by done. simpl. by rewrite <- app_assoc.
    + by rewrite filter_cons_False by (by rewrite E).
Qed.

Lemma walk_fold_spec (entries : list (string * list string * list string)) acc :
  foldl (fun parquet_files entry => collect_files entry.1.1 entry.2 parquet_files)
        acc entries
  = (acc ++ (entries ≫= fun entry =>
               path_join entry.1.1
                 <$> filter (fun f => endswith f ".parquet" = true) entry.2))%list.
Proof.
  revert acc. induction entries as [|entry entries IH]; intros acc; simpl.
  - by rewrite app_nil_r.
  - rewrite IH, collect_files_spec. by rewrite <- app_assoc.
Qed.

Lemma list_parquet_files_members_aux (path : string) (found : list string) (p : string) :
  list_parquet_files path_exists walk path = Returned found ->
  p ∈ found
  <-> exists root dirs files file,
        (root, dirs, files) ∈ walk path /\ file ∈ files
        /\ endswith file ".parquet" = true /\ p = path_join root file.
Proof.
  unfold list_parquet_files. destruct (path_exists path); simpl; [|done].
  intros [= <-]. rewrite walk_fold_spec. simpl.
  rewrite list_elem_of_bind. split.
  - intros ([[root dirs] files] & Hp & Hentry). simpl in Hp.
    apply list_elem_of_fmap in Hp as (file & -> & Hfile).
    apply list_elem_of_filter in Hfile as [Hends Hfile].
    by exists root, dirs, files, file.
  - intros (root & dirs & files & file & Hentry & Hfile & Hends & ->).
    exists (root, dirs, files). split; [|done]. simpl.
    apply list_elem_of_fmap_2. by apply list_elem_of_filter.
Qed.

(** X16.  [list_parquet_files] returns exactly the joins of a directory
    of the walk with a file of that directory whose name ends with
    [".parquet"]. *)
Theorem list_parquet_files_members (path : string) (found : list string) (p : string) :
  list_parquet_files path_exists walk path = Returned found ->
  p ∈ found
  <-> exists root dirs files file,
        (root, dirs, files) ∈ walk path /\ file ∈ files
        /\ endswith file ".parquet" = true /\ p = path_join root file.
Proof. apply list_parquet_files_members_aux. Qed.

(** X17.  Every path [list_parquet_files] returns ends with
    [".parquet"], whatever the directory it was joined with. *)
Theorem list_parquet_files_extension (path : string) (found : list string) (p : string) :
  list_parquet_files path_exists walk path = Returned found ->
  p ∈ found -> endswith p ".parquet" = true.
Proof.
  intros Hfound Hp.
  apply (list_parquet_files_members_aux path found p Hfound) in Hp
    as (root & dirs & files & file & _ & _ & Hends & ->).
  by apply endswith_path_join.
Qed.

End FileSystem.

Lemma process_include_subfolders_irrelevant_witness :
  let path_exists := fun _ : string => true in
  let isfile := fun _ : string => false in
  let isdir := fun _ : string => true in
  let read_parquet := fun _ : string =>
    Return (mkFrame ["facility_name"] [mkRow 0 [Str "Clinic"]]) in
  process path_exists isfile isdir read_parquet "/parquet_data" true
  = process path_exists isfile isdir read_parquet "/parquet_data" false.
Proof.
  intros path_exists isfile isdir read_parquet.
  apply (process_include_subfolders_irrelevant path_exists isfile isdir read_parquet).
  by right.
Defined.

Lemma list_parquet_files_members_witness :
  let path_exists := fun _ : string => true in
  let walk := fun _ : string =>
    [("/data", ["year=2024"], ["_SUCCESS"; "part-0.parquet"]);
     ("/data/year=2024", [], ["part-1.parquet"; "notes.txt"])] in
  "/data/year=2024/part-1.parquet"
    ∈ ["/data/part-0.parquet"; "/data/year=2024/part-1.parquet"].
Proof.
  intros path_exists walk.
  apply (list_parquet_files_members path_exists walk "/data"
           ["/data/part-0.parquet"; "/data/year=2024/part-1.parquet"]
           "/data/year=2024/part-1.parquet" eq_refl).
  exists "/data/year=2024", [], ["part-1.parquet"; "notes.txt"], "part-1.parquet".
  split; [|split; [|split]]; [| |done|done].
  - apply elem_of_cons. right. left.
  - left.
Defined.

Lemma list_parquet_files_extension_witness :
  let path_exists := fun _ : string => true in
  let walk := fun _ : string =>
    [("/data", ["year=2024"], ["_SUCCESS"; "part-0.parquet"]);
     ("/data/year=2024", [], ["part-1.parquet"; "notes.txt"])] in
  endswith "/data/part-0.parquet" ".parquet" = true.
Proof.
  intros path_exists walk.
  apply (list_parquet_files_extension path_exists walk "/data"
           ["/data/part-0.parquet"; "/data/year=2024/part-1.parquet"]
           "/data/part-0.parquet" eq_refl).
  left.
Defined.

End ReaderFacts.

Module SuiteFacts.
Import Pandas Postgres DataQualityLibrary Conftest FacilityTests CsvSuite.

Lemma process_returned_not_empty path_exists isfile isdir read_parquet path inc df :
  ParquetReader.process path_exists isfile isdir read_parquet path inc = Returned df ->
  empty df = false.
Proof.
  unfold ParquetReader.process. destruct (path_exists path); simpl; [|done].
  destruct inc, (isfile path), (isdir path); simpl; try done.
  all: destruct (read_parquet path) as [df'|e]; simpl; [|done].
  all: destruct (empty df') eqn:E; simpl; [done|]; by intros [= <-].
Qed.

(** X18.  When the fixture [target_data] returns a frame,
    [test_check_target_dataset_is_not_empty] passes on it: the reader
    has already rejected an empty frame. *)
Theorem target_data_passes_smoke_test
    (path_exists isfile isdir : string -> bool)
    (read_parquet : string -> result DataFrame) (df : DataFrame) :
  target_data path_exists isfile isdir read_parquet = Returned df ->
  test_check_target_dataset_is_not_empty df = Return tt.
Proof.
  intros H%process_returned_not_empty.
  unfold test_check_target_dataset_is_not_empty, check_dataset_is_not_empty.
  rewrite H. simpl. unfold empty in H.
  apply orb_false_iff in H as [_ H]. apply Z.eqb_neq in H.
  destruct (Z.gtb_spec (Z.of_nat (length (columns df))) 0); [done|lia].
Qed.

(** X19.  [pytest_configure] fails exactly when [--db_user] or
    [--db_password] is missing or empty, naming [--db_user] when both
    are, and then registers no marker; otherwise it appends its five
    marker lines. *)
Theorem pytest_configure_outcomes (supplied : gmap string string) (markers : list string) :
  let user := truthy_str (supplied !! "--db_user") in
  let password := truthy_str (supplied !! "--db_password") in
  match pytest_configure supplied markers with
  | Returned markers' =>
      user = true /\ password = true
      /\ exists added, markers' = (markers ++ added)%list /\ length added = 5%nat
  | Raised (Failed msg) =>
      (user = false /\ msg = "Missing required option: --db_user")
      \/ (user = true /\ password = false
          /\ msg = "Missing required option: --db_password")
  | Raised _ => False
  end.
Proof.
  unfold pytest_configure, check_required, getoption.
  destruct (supplied !! "--db_user") as [[|a u]|]; simpl; auto.
  destruct (supplied !! "--db_password") as [[|b p]|]; simpl; auto.
  repeat split. by eexists.
Qed.

Section Fixtures.

Variable connect_refused : Connector -> option string.
Variable cursor_refused : nat -> option string.
Variable int_ : string -> result Z.

(** X20.  The setup of the fixture [db_connection] either yields a
    connector with the given options and both handles open, or fails
    with [pytest.fail]; no [Exception] leaves it.  A port that is not a
    number and a refused connection leave the world untouched; a refused
    cursor leaves the new connection open. *)
Theorem db_connection_setup_outcomes
    (db_host db_name db_port db_user db_password : string) (w : World) :
  let setup := db_connection_setup connect_refused cursor_refused int_
                 db_host db_name db_port db_user db_password w in
  match setup.1 with
  | Returned db_connector =>
      exists port c k,
        int_ db_port = Return port
        /\ db_connector
           = mkConnector db_host db_name port db_user db_password (Some c) (Some k)
        /\ c ∈ open_connections (setup.2) /\ k ∈ open_cursors (setup.2)
  | Raised (Failed msg) =>
      exists detail,
        msg = "Failed to initialize PostgresConnectorContextManager: " ++ detail
        /\ ((exists e, int_ db_port = Raise e /\ detail = str_exn e /\ setup.2 = w)
            \/ (exists port m,
                  int_ db_port = Return port
                  /\ connect_refused (__init__ db_host db_name port db_user db_password)
                     = Some m
                  /\ detail = "Failed to connect to database: " ++ m
                  /\ setup.2 = w)
            \/ (exists m,
                  cursor_refused (next_handle w) = Some m
                  /\ detail = "Failed to connect to database: " ++ m
                  /\ next_handle w ∈ open_connections (setup.2)))
  | Raised _ => False
  end.
Proof.
  unfold db_connection_setup, __enter__, psycopg2_connect, connection_cursor.
  destruct (int_ db_port) as [port|e] eqn:Ei; simpl.
  2:{ eexists. split; [done|]. left. by exists e. }
  destruct (connect_refused _) as [m|] eqn:Ec; simpl.
  { eexists. split; [done|]. right. left. by exists port, m. }
  destruct (cursor_refused _) as [m|] eqn:Ek; simpl.
  { eexists. split; [done|]. right. right. exists m.
    split; [done|]. split; [done|].
    apply elem_of_union_l. by apply elem_of_singleton. }
  eexists port, _, _. split; [done|]. split; [done|].
  split; apply elem_of_union_l; by apply elem_of_singleton.
Qed.


End Fixtures.

(** X22.  After [pytest_collection_modifyitems] every test has a mark.
    The hook appends [unmarked] to the own marks of a test that has no
    mark or whose only mark is [unmarked], changes no inherited mark,
    and leaves every other test as it is. *)
Theorem modifyitems_marks_only_unmarked (items : list Item) :
  Forall (fun item => iter_markers item <> []) (pytest_collection_modifyitems items)
  /\ Forall2 (fun item item' =>
                inherited_markers item' = inherited_markers item
                /\ (iter_markers item = [] \/ iter_markers item = ["unmarked"] ->
                    own_markers item' = (own_markers item ++ ["unmarked"])%list)
                /\ (iter_markers item <> [] -> iter_markers item <> ["unmarked"] ->
                    item' = item))
             items (pytest_collection_modifyitems items).
Proof.
  unfold pytest_collection_modifyitems. split.
  - apply Forall_fmap, Forall_forall. intros item _. simpl.
    unfold mark_if_unmarked. destruct (_ || _) eqn:E.
    + unfold iter_markers, add_marker. simpl. by destruct (own_markers item).
    + apply orb_false_iff in E as [E _]. by apply bool_decide_eq_false in E.
  - apply Forall2_fmap_r, Forall_Forall2_diag, Forall_forall. intros item _.
    unfold mark_if_unmarked.
    destruct (iter_markers item) as [|m [|m' ms]] eqn:Em; simpl.
    + rewrite Em. by repeat split.
    + rewrite Em. rewrite (bool_decide_false ([m] = [])) by done.
      destruct (decide (m = "unmarked")) as [->|Hne].
      * rewrite bool_decide_true by (by apply list_elem_of_singleton).
        by repeat split.
      * rewrite bool_decide_false by (by rewrite list_elem_of_singleton).
        repeat split; try done. intros [|[= ->]]; done.
    + rewrite Em. rewrite (bool_decide_false (_ = [])) by done.
      assert ((Z.of_nat (length (m :: m' :: ms)) =? 1) = false) as ->
          by (apply Z.eqb_neq; simpl length; lia).
      simpl. repeat split; try done. intros [|]; done.
Qed.

Lemma NoDup_no_earlier {A} (l : list A) :
  NoDup l <-> forall i x, l !! i = Some x -> x ∉ take i l.
Proof.
  rewrite NoDup_alt. split.
  - intros H i x Hi [j Hj]%list_elem_of_lookup.
    apply lookup_take_Some in Hj as [Hj Hlt].
    specialize (H i j x Hi Hj). lia.
  - intros H i j x Hi Hj.
    destruct (lt_eq_lt_dec i j) as [[Hlt| ->]|Hlt]; [|done|].
    + exfalso. apply (H j x Hj). apply list_elem_of_lookup. exists i.
      by apply lookup_take_Some.
    + exfalso. apply (H i x Hi). apply list_elem_of_lookup. exists j.
      by apply lookup_take_Some.
Qed.

Lemma NoDup_no_pair (ks : list (list scalar)) :
  NoDup ks <-> ~ Checks.has_duplicate_pair ks.
Proof.
  rewrite NoDup_alt. unfold Checks.has_duplicate_pair. split.
  - intros H (i & j & k & Hne & Hi & Hj). apply Hne. by eapply H.
  - intros H i j x Hi Hj. destruct (decide (i = j)) as [|Hne]; [done|].
    exfalso. apply H. by exists i, j, x.
Qed.

Lemma count_true_zero (ks : list (list scalar)) :
  count_true (mark_later_duplicates ks) = 0 <-> NoDup ks.
Proof.
  unfold count_true. rewrite NoDup_no_earlier. split.
  - intros H i k Hi Hin.
    assert (0 < length (filter (fun b => b = true) (mark_later_duplicates ks)))%nat;
      [|lia].
    apply Masks.filter_true_pos. exists i. unfold mark_later_duplicates.
    rewrite list_lookup_imap, Hi. simpl. by rewrite bool_decide_true.
  - intros H.
    destruct (length (filter (fun b => b = true) (mark_later_duplicates ks))) eqn:E;
      [done|].
    exfalso.
    assert (0 < length (filter (fun b => b = true) (mark_later_duplicates ks)))%nat
      as [i Hi]%Masks.filter_true_pos by lia.
    unfold mark_later_duplicates in Hi. rewrite list_lookup_imap in Hi.
    destruct (ks !! i) as [k|] eqn:Ek; [|done]. simpl in Hi.
    injection Hi as Hi. apply bool_decide_eq_true in Hi. by apply (H i k).
Qed.

(** X23.  On a table with at least one column, [test_duplicates] of the
    CSV suite passes exactly when no two rows have the same cells, that
    is, exactly when [check_duplicates] without column names returns on
    the table. *)
Theorem test_duplicates_iff_no_equal_rows
    (to_string : DataFrame -> string) (csv_data : DataFrame) (max_display : Z) :
  columns csv_data <> [] ->
  (test_duplicates csv_data = Return tt <-> NoDup (cells <$> rows csv_data))
  /\ (test_duplicates csv_data = Return tt
      <-> check_duplicates to_string csv_data None max_display = Return tt).
Proof.
  intros Hcols.
  assert (duplicated_first csv_data = mark_later_duplicates (cells <$> rows csv_data))
    as Hmask.
  { unfold duplicated_first, empty, len.
    destruct (rows csv_data) as [|r rs], (columns csv_data) as [|c cs]; done. }
  assert (test_duplicates csv_data = Return tt <-> NoDup (cells <$> rows csv_data))
    as Hiff.
  { rewrite <- count_true_zero. unfold test_duplicates, assert_. rewrite Hmask.
    destruct (Z.eqb_spec (count_true (mark_later_duplicates (cells <$> rows csv_data))) 0);
      split; done. }
  split; [done|]. rewrite Hiff, NoDup_no_pair. symmetry.
  by apply Checks.check_duplicates_returns_iff.
Qed.

Lemma test_duplicates_iff_no_equal_rows_witness :
  let csv_data := mkFrame ["id"; "name"]
                    [mkRow 0 [Str "1"; Str "Ann"]; mkRow 1 [Str "2"; Str "Bob"];
                     mkRow 2 [Str "1"; Str "Ann"]] in
  ~ NoDup (cells <$> rows csv_data)
  /\ test_duplicates csv_data
     = Raise (AssertionError "Found 1 duplicate rows in the CSV file").
Proof.
  intros csv_data.
  assert (Hfails : test_duplicates csv_data
                   = Raise (AssertionError "Found 1 duplicate rows in the CSV file"))
    by (by vm_compute).
  split; [|exact Hfails].
  intros Hno.
  apply (test_duplicates_iff_no_equal_rows (fun _ => "") csv_data 10) in Hno;
    [|done].
  rewrite Hfails in Hno. discriminate Hno.
Defined.

Lemma target_data_passes_smoke_test_witness :
  let path_exists := fun _ : string => true in
  let isfile := fun _ : string => false in
  let isdir := fun _ : string => true in
  let df := mkFrame ["facility_name"] [mkRow 0 [Str "Clinic"]] in
  let read_parquet := fun _ : string => Return df in
  test_check_target_dataset_is_not_empty df = Return tt.
Proof.
  intros path_exists isfile isdir df read_parquet.
  by apply (target_data_passes_smoke_test path_exists isfile isdir read_parquet df).
Defined.


End SuiteFacts.
